(** * A shallow embedding of the blog application (main.py)

    The application is a set of Flask route handlers over three SQLAlchemy
    tables (users, blog_posts, comments), a flask-login session and the
    werkzeug password hash.  The handlers are embedded as computations in a
    small state-and-exception monad over the request context (database rows,
    login session, flashed messages); the library calls they make are given
    the behaviour the libraries document:

    - [db.session.query(M).get(k)] returns the row with primary key [k] or
      [None]; a key that does not fit the signed 64-bit integer of the
      database cannot be sent to it and the call raises [OverflowError];
    - [db.session.add(x); db.session.commit()] inserts the row with the next
      integer primary key, and raises [IntegrityError] (rolling back) when a
      [unique=True] column would hold a duplicate;
    - [db.session.delete(x); db.session.commit()] on a parent whose
      relationship has no delete cascade sets the foreign key of the children
      to NULL and deletes the parent; [db.session.delete(None)] raises
      [UnmappedInstanceError];
    - [current_user] is the row loaded by [load_user] for the identifier kept
      in the session, or an [AnonymousUserMixin] object, which has
      [is_authenticated = False] and no attribute [id];
    - [abort(code)] raises an HTTP exception; every other exception that
      leaves a handler is unhandled (a server error). *)

From Stdlib Require Import ZArith Lia DecimalString.
From stdpp Require Import prelude strings.

Local Open Scope string_scope.
Local Open Scope Z_scope.

(** ** Tables *)

Module User.
Record t := mk {
  id : Z;
  email : string;
  password : string;
  name : string
}.
End User.

Module BlogPost.
Record t := mk {
  id : Z;
  author_id : option Z;
  title : string;
  subtitle : string;
  date : string;
  body : string;
  img_url : string
}.
End BlogPost.

Module Comment.
Record t := mk {
  id : Z;
  author_id : option Z;
  post_id : option Z;
  text : string
}.
End Comment.

Record Store := {
  users : list User.t;
  blog_posts : list BlogPost.t;
  comments : list Comment.t
}.

(** [db.create_all()] on a fresh database. *)
Definition create_all : Store :=
  {| users := []; blog_posts := []; comments := [] |}.

(** An integer primary key left unset on insert receives one more than the
    largest key of the table, 1 in an empty table (the row identifier of
    SQLite, the database of the default [DATABASE_URL]). *)
Definition next_id (ids : list Z) : Z := 1 + foldr Z.max 0 ids.

(** ** Request context, exceptions and the handler monad *)

Inductive Exn :=
| AttributeError
| UnmappedInstanceError
| IntegrityError
| OverflowError
| HTTPException (code : Z).

Inductive Result (A : Type) :=
| Return (a : A)
| Raise (e : Exn).
Arguments Return {A} a.
Arguments Raise {A} e.

Record Ctx := {
  db : Store;
  session : option Z;
  flashes : list string
}.

Definition Flask (A : Type) : Type := Ctx -> Result A * Ctx.

Definition ret {A} (a : A) : Flask A := fun c => (Return a, c).

Definition raise {A} (e : Exn) : Flask A := fun c => (Raise e, c).

Definition bind {A B} (m : Flask A) (k : A -> Flask B) : Flask B :=
  fun c =>
    match m c with
    | (Return a, c') => k a c'
    | (Raise e, c') => (Raise e, c')
    end.

Notation "'let*' x ':=' m 'in' k" := (bind m (fun x => k))
  (at level 10, x name, m at level 100, k at level 200).

Definition lift {A} (r : Result A) : Flask A := fun c => (r, c).

Definition get_db : Flask Store := fun c => (Return (db c), c).

(** ** What a view returns *)

Inductive Endpoint :=
| ep_get_all_posts
| ep_login
| ep_show_post (index : Z).

Inductive TemplateArgs :=
| no_args
| all_posts (posts : list BlogPost.t)
| post_page (post : option BlogPost.t)
| edit_page (id : Z).

Inductive Response :=
| render_template (template : string) (args : TemplateArgs)
| redirect (target : Endpoint).

Definition url_for (e : Endpoint) : Endpoint := e.

Definition flash (msg : string) : Flask unit :=
  fun c => (Return tt,
            {| db := db c; session := session c; flashes := flashes c ++ [msg] |}).

Definition abort {A} (code : Z) : Flask A := raise (HTTPException code).

(** ** flask-login *)

Inductive Actor :=
| AnonymousUserMixin
| LoggedIn (u : User.t).

Definition is_authenticated (a : Actor) : bool :=
  match a with
  | AnonymousUserMixin => false
  | LoggedIn _ => true
  end.

(** [current_user.id]: the anonymous object has no such attribute. *)
Definition getattr_id (a : Actor) : Result Z :=
  match a with
  | AnonymousUserMixin => Raise AttributeError
  | LoggedIn u => Return (User.id u)
  end.

(** [User.query.get(user_id)] *)
Definition User_query_get (s : Store) (user_id : Z) : option User.t :=
  List.find (fun u => User.id u =? user_id) (users s).

Definition load_user (s : Store) (user_id : Z) : option User.t :=
  User_query_get s user_id.

Definition current_user_of (c : Ctx) : Actor :=
  match session c with
  | None => AnonymousUserMixin
  | Some user_id =>
      match load_user (db c) user_id with
      | Some u => LoggedIn u
      | None => AnonymousUserMixin
      end
  end.

Definition current_user : Flask Actor :=
  fun c => (Return (current_user_of c), c).

Definition login_user (u : User.t) : Flask unit :=
  fun c => (Return tt,
            {| db := db c; session := Some (User.id u); flashes := flashes c |}).

Definition logout_user : Flask unit :=
  fun c => (Return tt, {| db := db c; session := None; flashes := flashes c |}).

(** ** The admin-only decorator *)

Definition admin_only {A} (f : A -> Flask Response) : A -> Flask Response :=
  fun args =>
    let* cu := current_user in
    let* uid := lift (getattr_id cu) in
    if negb (uid =? 1) || negb (is_authenticated cu)
    then abort 403
    else f args.

(** ** The forms layer *)

(** Modelled from the spec: forms.py ([CreatePostForm], [RegisterNewUser],
    [Login], [UserComment]) is not among the sources.  The forms layer
    returns a record of validated field values (title, subtitle, body, image
    URL for posts; email, password, name for registration; email, password
    for login; text for comments) or a validation failure.  A view receives
    [Some data] when [form.validate_on_submit()] is true and [None]
    otherwise. *)

Module CreatePostForm.
Record t := mk {
  title : string;
  subtitle : string;
  img_url : string;
  body : string
}.
End CreatePostForm.

Module RegisterNewUser.
Record t := mk {
  email : string;
  password : string;
  name : string
}.
End RegisterNewUser.

Module Login.
Record t := mk {
  email : string;
  password : string
}.
End Login.

Module UserComment.
Record t := mk { comment : string }.
End UserComment.

(** ** The clock *)

Record datetime := {
  year : nat;
  month : nat;
  day : nat
}.

Definition month_names : list string :=
  ["January"; "February"; "March"; "April"; "May"; "June"; "July";
   "August"; "September"; "October"; "November"; "December"].

Definition decimal (n : nat) : string := NilZero.string_of_uint (Nat.to_uint n).

(** [%B], [%d] and [%Y] of [strftime]. *)
Definition strftime_B (x : datetime) : string :=
  default "" (month_names !! (month x - 1)%nat).

Definition strftime_d (x : datetime) : string :=
  if (day x <? 10)%nat then "0" +:+ decimal (day x) else decimal (day x).

Definition strftime_Y (x : datetime) : string := decimal (year x).

(** ** The ORM session *)

(** The integers the database can hold: signed, 64 bits. *)
Definition sqlite_integer (k : Z) : bool := (- 2 ^ 63 <=? k) && (k <? 2 ^ 63).

(** [db.session.query(BlogPost).get(index)]: the row stored under the key,
    or [None].  A key outside the integers of the database cannot be bound
    as a query parameter, and the call raises [OverflowError].  No table of
    the database holds a row under such a key; a store that does is
    answered with its row. *)
Definition BlogPost_query_get (index : Z) : Flask (option BlogPost.t) :=
  fun c =>
    match List.find (fun p => BlogPost.id p =? index) (blog_posts (db c)) with
    | Some p => (Return (Some p), c)
    | None =>
        if sqlite_integer index then (Return None, c)
        else (Raise OverflowError, c)
    end.

(** The identifier behind an object given to a relationship attribute
    ([author=current_user], [comment_author=current_user]): only a mapped
    row has one. *)
Definition mapped_id (a : Actor) : Result Z := getattr_id a.

(** [db.session.add(User(...)); db.session.commit()], with the unique
    constraint of [users.email]. *)
Definition add_commit_user (email password name : string) : Flask User.t :=
  fun c =>
    let s := db c in
    if decide (email ∈ User.email <$> users s) then (Raise IntegrityError, c)
    else
      let u := User.mk (next_id (User.id <$> users s)) email password name in
      (Return u,
       {| db := {| users := users s ++ [u];
                   blog_posts := blog_posts s;
                   comments := comments s |};
          session := session c; flashes := flashes c |}).

(** [db.session.add(BlogPost(...)); db.session.commit()], with the unique
    constraint of [blog_posts.title]. *)
Definition add_commit_post (author : Actor)
    (title subtitle date body img_url : string) : Flask BlogPost.t :=
  let* author_id := lift (mapped_id author) in
  fun c =>
    let s := db c in
    if decide (title ∈ BlogPost.title <$> blog_posts s)
    then (Raise IntegrityError, c)
    else
      let p := BlogPost.mk (next_id (BlogPost.id <$> blog_posts s))
                 (Some author_id) title subtitle date body img_url in
      (Return p,
       {| db := {| users := users s;
                   blog_posts := blog_posts s ++ [p];
                   comments := comments s |};
          session := session c; flashes := flashes c |}).

(** [db.session.add(Comment(...)); db.session.commit()] *)
Definition add_commit_comment (parent_post : option BlogPost.t)
    (comment_author : Actor) (text : string) : Flask Comment.t :=
  let* author_id := lift (mapped_id comment_author) in
  fun c =>
    let s := db c in
    let cm := Comment.mk (next_id (Comment.id <$> comments s))
                (Some author_id) (BlogPost.id <$> parent_post) text in
    (Return cm,
     {| db := {| users := users s;
                 blog_posts := blog_posts s;
                 comments := comments s ++ [cm] |};
        session := session c; flashes := flashes c |}).

(** The in-memory object [p], changed by attribute assignments, is written
    back by [db.session.commit()]; the unique constraint of
    [blog_posts.title] is checked against the other rows. *)
Definition commit_dirty_post (p : BlogPost.t) : Flask unit :=
  fun c =>
    let s := db c in
    if existsb (fun q => (BlogPost.title q =? BlogPost.title p)%string
                         && negb (BlogPost.id q =? BlogPost.id p))
               (blog_posts s)
    then (Raise IntegrityError, c)
    else
      (Return tt,
       {| db := {| users := users s;
                   blog_posts :=
                     (fun q => if BlogPost.id q =? BlogPost.id p then p else q)
                       <$> blog_posts s;
                   comments := comments s |};
          session := session c; flashes := flashes c |}).

(** A comment of the deleted post loses its parent: the relationship
    [BlogPost.comments] has no delete cascade, so the session sets
    [post_id] to NULL. *)
Definition unparent (post_id : Z) (cm : Comment.t) : Comment.t :=
  if decide (Comment.post_id cm = Some post_id)
  then Comment.mk (Comment.id cm) (Comment.author_id cm) None (Comment.text cm)
  else cm.

(** [db.session.delete(x); db.session.commit()] *)
Definition delete_commit_post (x : option BlogPost.t) : Flask unit :=
  match x with
  | None => raise UnmappedInstanceError
  | Some p =>
      fun c =>
        let s := db c in
        (Return tt,
         {| db := {| users := users s;
                     blog_posts :=
                       filter (fun q => BlogPost.id q ≠ BlogPost.id p) (blog_posts s);
                     comments := unparent (BlogPost.id p) <$> comments s |};
            session := session c; flashes := flashes c |})
  end.

(** Attribute access on the result of [get]: [None] has no attributes. *)
Definition deref {A} (x : option A) : Result A :=
  match x with
  | Some a => Return a
  | None => Raise AttributeError
  end.

(** ** The views *)

(** [get_all_posts] *)
Definition get_all_posts : Flask Response :=
  let* s := get_db in
  let posts := blog_posts s in
  ret (render_template "index.html" (all_posts posts)).

(** [show_post] *)
Definition show_post (index : Z) (form : option UserComment.t) : Flask Response :=
  let* requested_post := BlogPost_query_get index in
  match form with
  | Some form =>
      let* cu := current_user in
      if is_authenticated cu then
        let* new_comment :=
          add_commit_comment requested_post cu (UserComment.comment form) in
        ret (render_template "post.html" (post_page requested_post))
      else
        let* _ := flash "You need to login to comment!!!" in
        ret (redirect (url_for ep_login))
  | None => ret (render_template "post.html" (post_page requested_post))
  end.

(** [new_post], before and after decoration *)
Definition new_post_view (args : option CreatePostForm.t * datetime)
  : Flask Response :=
  let '(form, x) := args in
  match form with
  | Some form =>
      let f := strftime_B x +:+ " " +:+ strftime_d x +:+ "," +:+ strftime_Y x in
      let* cu := current_user in
      let* new_post :=
        add_commit_post cu
          (CreatePostForm.title form) (CreatePostForm.subtitle form) f
          (CreatePostForm.body form) (CreatePostForm.img_url form) in
      ret (redirect (url_for ep_get_all_posts))
  | None => ret (render_template "make-post1.html" no_args)
  end.

Definition new_post := admin_only new_post_view.

(** [edit_post], before and after decoration *)
Definition edit_post_view (args : Z * option CreatePostForm.t) : Flask Response :=
  let '(post_id, form) := args in
  let* found := BlogPost_query_get post_id in
  let* post_to_edit := lift (deref found) in
  match form with
  | Some edit_form =>
      let post_to_edit :=
        BlogPost.mk (BlogPost.id post_to_edit) (BlogPost.author_id post_to_edit)
          (CreatePostForm.title edit_form)
          (CreatePostForm.subtitle edit_form)
          (BlogPost.date post_to_edit)
          (CreatePostForm.body edit_form)
          (CreatePostForm.img_url edit_form) in
      let* _ := commit_dirty_post post_to_edit in
      ret (redirect (url_for (ep_show_post (BlogPost.id post_to_edit))))
  | None =>
      ret (render_template "make-post1.html" (edit_page (BlogPost.id post_to_edit)))
  end.

Definition edit_post := admin_only edit_post_view.

(** [delete_post], before and after decoration *)
Definition delete_post_view (post_id : Z) : Flask Response :=
  let* post_to_delete := BlogPost_query_get post_id in
  let* _ := delete_commit_post post_to_delete in
  ret (redirect (url_for ep_get_all_posts)).

Definition delete_post := admin_only delete_post_view.

Definition about : Flask Response := ret (render_template "about.html" no_args).

Definition contact : Flask Response := ret (render_template "contact.html" no_args).

Definition logout : Flask Response :=
  let* _ := logout_user in
  ret (redirect (url_for ep_get_all_posts)).

Section Werkzeug.

(** The password hash of werkzeug.security.  [generate_password_hash]
    draws a fresh salt on every call; the salt is an input here. *)
Variable generate_password_hash : string -> string -> string.
Variable check_password_hash : string -> string -> bool.

(** [register] *)
Definition register (form : option RegisterNewUser.t) (salt : string)
  : Flask Response :=
  match form with
  | Some form =>
      let new_email := RegisterNewUser.email form in
      let new_password :=
        generate_password_hash salt (RegisterNewUser.password form) in
      let new_name := RegisterNewUser.name form in
      let* s := get_db in
      let all_users := users s in
      let all_user_emails := User.email <$> all_users in
      if decide (RegisterNewUser.email form ∉ all_user_emails) then
        let* new_user := add_commit_user new_email new_password new_name in
        let* _ := login_user new_user in
        ret (redirect (url_for ep_get_all_posts))
      else
        let* _ := flash "This email already exists, login instead!!!." in
        ret (redirect (url_for ep_login))
  | None => ret (render_template "register.html" no_args)
  end.

(** [User.query.filter_by(email=email).first()] *)
Definition User_filter_by_email_first (email : string) : Flask (option User.t) :=
  fun c =>
    (Return (List.find (fun u => (User.email u =? email)%string) (users (db c))), c).

(** [login] *)
Definition login (form : option Login.t) : Flask Response :=
  match form with
  | Some form =>
      let email := Login.email form in
      let password := Login.password form in
      let* user := User_filter_by_email_first email in
      match user with
      | Some user =>
          if check_password_hash (User.password user) password then
            let* _ := login_user user in
            ret (redirect (url_for ep_get_all_posts))
          else
            let* _ := flash "Password is incorrect" in
            ret (render_template "login.html" no_args)
      | None =>
          let* _ := flash "Email does not exist, please try again." in
          ret (render_template "login.html" no_args)
      end
  | None => ret (render_template "login.html" no_args)
  end.

(** ** Requests and reachable stores *)

Inductive Request :=
| GET_index
| ANY_post (index : Z) (form : option UserComment.t)
| ANY_new_post (form : option CreatePostForm.t) (now : datetime)
| ANY_edit_post (post_id : Z) (form : option CreatePostForm.t)
| GET_delete_post (post_id : Z)
| GET_about
| GET_contact
| ANY_register (form : option RegisterNewUser.t) (salt : string)
| ANY_login (form : option Login.t)
| GET_logout.

Definition dispatch (r : Request) : Flask Response :=
  match r with
  | GET_index => get_all_posts
  | ANY_post index form => show_post index form
  | ANY_new_post form now => new_post (form, now)
  | ANY_edit_post post_id form => edit_post (post_id, form)
  | GET_delete_post post_id => delete_post post_id
  | GET_about => about
  | GET_contact => contact
  | ANY_register form salt => register form salt
  | ANY_login form => login form
  | GET_logout => logout
  end.

(** The stores the application can reach from an empty database: every
    request is served in some context (any session cookie, any pending
    flashes) over the store left by the previous one. *)
Inductive reachable : Store -> Prop :=
| reachable_create_all : reachable create_all
| reachable_request s cookie fl r :
    reachable s ->
    reachable
      (db (dispatch r {| db := s; session := cookie; flashes := fl |}).2).

End Werkzeug.

(** ** Auxiliary definitions for the statements *)

(** What the dispatcher of Flask does with the result of a view: an HTTP
    exception becomes a response with its status code; any other exception
    is unhandled and the request ends in a server error. *)
Definition unhandled {A} (r : Result A) : bool :=
  match r with
  | Return _ => false
  | Raise (HTTPException _) => false
  | Raise _ => true
  end.

(** The administrator is logged in. *)
Definition admin_logged_in (c : Ctx) : Prop :=
  exists u, current_user_of c = LoggedIn u /\ User.id u = 1.

(** A sequence of registration requests, served one after the other. *)
Fixpoint register_all (generate_password_hash : string -> string -> string)
    (rs : list (RegisterNewUser.t * string)) (c : Ctx)
  : list (Result Response) * Ctx :=
  match rs with
  | [] => ([], c)
  | (form, salt) :: rs' =>
      let '(r, c1) := register generate_password_hash (Some form) salt c in
      let '(l, c2) := register_all generate_password_hash rs' c1 in
      (r :: l, c2)
  end.

(** A stand-in for the password hash, for the concrete examples only: it
    ignores the salt and keeps the password readable. *)
Definition example_generate (salt password : string) : string :=
  "plain$" +:+ password.

Definition example_check (pwhash password : string) : bool :=
  (pwhash =? "plain$" +:+ password)%string.

Definition alice : User.t :=
  User.mk 1 "alice@example.com" (example_generate "s1" "pw123") "Alice".

Definition bob : User.t :=
  User.mk 2 "bob@example.com" (example_generate "s2" "hunter2") "Bob".

Definition first_post : BlogPost.t :=
  BlogPost.mk 1 (Some 1) "Hello" "A first post" "March 05,2024" "<p>Hi</p>" "http://img/1.png".

Definition second_post : BlogPost.t :=
  BlogPost.mk 2 (Some 1) "Again" "A second post" "March 06,2024" "<p>Ho</p>" "http://img/2.png".

Definition nice_comment : Comment.t := Comment.mk 1 (Some 2) (Some 1) "nice post".

Definition example_store : Store :=
  {| users := [alice; bob];
     blog_posts := [first_post; second_post];
     comments := [nice_comment] |}.

Definition as_user (s : Store) (cookie : option Z) : Ctx :=
  {| db := s; session := cookie; flashes := [] |}.

Definition hello_form : CreatePostForm.t :=
  CreatePostForm.mk "Third" "More" "http://img/3.png" "<p>Text</p>".

Definition a_day : datetime := {| year := 2024; month := 3; day := 5 |}.

(** The ways a request can change the store. *)
Inductive store_step (s : Store) : Store -> Prop :=
| step_none : store_step s s
| step_add_user u :
    User.id u = next_id (User.id <$> users s) ->
    User.email u ∉ User.email <$> users s ->
    store_step s
      {| users := users s ++ [u]; blog_posts := blog_posts s;
         comments := comments s |}
| step_add_post p :
    BlogPost.id p = next_id (BlogPost.id <$> blog_posts s) ->
    BlogPost.title p ∉ BlogPost.title <$> blog_posts s ->
    store_step s
      {| users := users s; blog_posts := blog_posts s ++ [p];
         comments := comments s |}
| step_add_comment cm u parent :
    Comment.id cm = next_id (Comment.id <$> comments s) ->
    u ∈ users s ->
    Comment.author_id cm = Some (User.id u) ->
    (forall p, parent = Some p -> p ∈ blog_posts s) ->
    Comment.post_id cm = BlogPost.id <$> parent ->
    store_step s
      {| users := users s; blog_posts := blog_posts s;
         comments := comments s ++ [cm] |}
| step_update_post p :
    (forall q, q ∈ blog_posts s -> BlogPost.title q = BlogPost.title p ->
               BlogPost.id q = BlogPost.id p) ->
    store_step s
      {| users := users s;
         blog_posts :=
           (fun q => if BlogPost.id q =? BlogPost.id p then p else q)
             <$> blog_posts s;
         comments := comments s |}
| step_delete_post k :
    store_step s
      {| users := users s;
         blog_posts := filter (fun q => BlogPost.id q ≠ k) (blog_posts s);
         comments := unparent k <$> comments s |}.

(** What the database itself guarantees: primary keys are distinct, and so
    are the values of the [unique=True] columns. *)
Record keys_unique (s : Store) : Prop := {
  users_pk : NoDup (User.id <$> users s);
  users_email : NoDup (User.email <$> users s);
  blog_posts_pk : NoDup (BlogPost.id <$> blog_posts s);
  blog_posts_title : NoDup (BlogPost.title <$> blog_posts s);
  comments_pk : NoDup (Comment.id <$> comments s)
}.

(** The author of a comment is a stored user; its parent reference is NULL
    or the identifier of a stored post. *)
Definition comment_linked (s : Store) (cm : Comment.t) : Prop :=
  (exists u, u ∈ users s /\ Comment.author_id cm = Some (User.id u)) /\
  (Comment.post_id cm = None \/
   exists p, p ∈ blog_posts s /\ Comment.post_id cm = Some (BlogPost.id p)).

Definition alice_form : RegisterNewUser.t :=
  RegisterNewUser.mk "alice@example.com" "pw123" "Alice".

Definition bob_form : RegisterNewUser.t :=
  RegisterNewUser.mk "bob@example.com" "hunter2" "Bob".

(** The row that [new_post] inserts. *)
Definition created_post (c : Ctx) (u : User.t) (form : CreatePostForm.t)
    (x : datetime) : BlogPost.t :=
  BlogPost.mk (next_id (BlogPost.id <$> blog_posts (db c))) (Some (User.id u))
    (CreatePostForm.title form) (CreatePostForm.subtitle form)
    (strftime_B x +:+ " " +:+ strftime_d x +:+ "," +:+ strftime_Y x)
    (CreatePostForm.body form) (CreatePostForm.img_url form).

(** The row that [register] inserts. *)
Definition registered_user (gen : string -> string -> string) (s : Store)
    (form : RegisterNewUser.t) (salt : string) : User.t :=
  User.mk (next_id (User.id <$> users s)) (RegisterNewUser.email form)
    (gen salt (RegisterNewUser.password form)) (RegisterNewUser.name form).

(** A stored user holds what a registration submitted. *)
Definition stored_for (gen : string -> string -> string)
    (r : RegisterNewUser.t * string) (u : User.t) : Prop :=
  User.email u = RegisterNewUser.email r.1 /\
  User.password u = gen r.2 (RegisterNewUser.password r.1) /\
  User.name u = RegisterNewUser.name r.1.

(** * Properties *)

Example strftime_example :
  strftime_B a_day +:+ " " +:+ strftime_d a_day +:+ "," +:+ strftime_Y a_day
  = "March 05,2024".
Proof. reflexivity. Qed.

Ltac run_flask :=
  unfold new_post, edit_post, delete_post, admin_only, new_post_view,
    edit_post_view, delete_post_view, show_post, get_all_posts, register,
    login, logout, about, contact, bind, ret, raise, abort, lift, flash,
    current_user, get_db, login_user, logout_user, BlogPost_query_get,
    User_filter_by_email_first, mapped_id;
  cbn [fst snd db session flashes getattr_id is_authenticated deref].

(** ** The decorator *)

Lemma admin_only_anonymous {A} (f : A -> Flask Response) args c :
  current_user_of c = AnonymousUserMixin ->
  admin_only f args c = (Raise AttributeError, c).
Proof. intros H. run_flask. now rewrite H. Qed.

Lemma admin_only_other_user {A} (f : A -> Flask Response) args c u :
  current_user_of c = LoggedIn u -> User.id u <> 1 ->
  admin_only f args c = (Raise (HTTPException 403), c).
Proof.
  intros H Hne. run_flask. rewrite H. cbn.
  destruct (Z.eqb_spec (User.id u) 1); [contradiction | reflexivity].
Qed.

Lemma admin_only_admin {A} (f : A -> Flask Response) args c :
  admin_logged_in c -> admin_only f args c = f args c.
Proof.
  intros (u & H & Hid). run_flask. rewrite H. cbn.
  rewrite Hid. reflexivity.
Qed.

(** The wrapped view runs only for the logged-in user with identifier 1. *)
Lemma admin_only_runs_only_for_admin {A} (f : A -> Flask Response) args c :
  admin_logged_in c \/
  (exists e, admin_only f args c = (Raise e, c)).
Proof.
  destruct (current_user_of c) as [|u] eqn:H.
  - right. eexists. now apply admin_only_anonymous.
  - destruct (Z.eq_dec (User.id u) 1) as [Hid|Hid].
    + left. now exists u.
    + right. eexists. eapply admin_only_other_user; eauto.
Qed.

(** C1 (code at the failing input).  A request without a login session to
    any of the three administrator routes ends in an unhandled
    [AttributeError], not in the 403 of [abort]: the decorator reads
    [current_user.id] before it looks at [is_authenticated], and the
    anonymous user object has no [id].  The store is left as it was. *)
Theorem admin_routes_anonymous_attribute_error :
  forall (s : Store) (fl : list string) form now post_id,
    let c := {| db := s; session := None; flashes := fl |} in
    new_post (form, now) c = (Raise AttributeError, c) /\
    edit_post (post_id, form) c = (Raise AttributeError, c) /\
    delete_post post_id c = (Raise AttributeError, c) /\
    unhandled (delete_post post_id c).1 = true.
Proof.
  intros. assert (H : current_user_of c = AnonymousUserMixin) by reflexivity.
  unfold new_post, edit_post, delete_post.
  rewrite !admin_only_anonymous by exact H. repeat split.
Qed.

(** X1.  For a logged-in user other than the administrator the three routes
    answer 403 and leave the context as it was. *)
Lemma admin_routes_forbidden_for_other_users c u form now post_id :
  current_user_of c = LoggedIn u -> User.id u <> 1 ->
  new_post (form, now) c = (Raise (HTTPException 403), c) /\
  edit_post (post_id, form) c = (Raise (HTTPException 403), c) /\
  delete_post post_id c = (Raise (HTTPException 403), c).
Proof.
  intros H Hne. repeat split; eapply admin_only_other_user; eauto.
Qed.

(** ** Looking rows up *)

Lemma find_some_id (posts : list BlogPost.t) k p :
  List.find (fun q => BlogPost.id q =? k) posts = Some p ->
  p ∈ posts /\ BlogPost.id p = k.
Proof.
  intros H. apply find_some in H as [Hin Hk].
  split; [now apply list_elem_of_In | lia].
Qed.

Lemma find_none_id (posts : list BlogPost.t) k :
  List.find (fun q => BlogPost.id q =? k) posts = None <->
  forall p, p ∈ posts -> BlogPost.id p <> k.
Proof.
  split.
  - intros H p Hin. apply list_elem_of_In in Hin.
    pose proof (find_none _ _ H p Hin) as Hk. cbn in Hk. lia.
  - intros H. induction posts as [|q posts IH]; [reflexivity|].
    cbn. destruct (Z.eqb_spec (BlogPost.id q) k) as [Heq|_].
    + exfalso. apply (H q); [left | exact Heq].
    + apply IH. intros p Hp. apply H. now right.
Qed.

Lemma sqlite_integer_in_range k : 0 <= k < 2 ^ 63 -> sqlite_integer k = true.
Proof.
  intros H. unfold sqlite_integer. apply andb_true_iff.
  split; [apply Z.leb_le | apply Z.ltb_lt]; lia.
Qed.

Lemma sqlite_integer_too_large k : 2 ^ 63 <= k -> sqlite_integer k = false.
Proof.
  intros H. unfold sqlite_integer. apply andb_false_iff. right.
  apply Z.ltb_ge. exact H.
Qed.

Lemma query_get_found index c p :
  List.find (fun q => BlogPost.id q =? index) (blog_posts (db c)) = Some p ->
  BlogPost_query_get index c = (Return (Some p), c).
Proof. intros H. unfold BlogPost_query_get. now rewrite H. Qed.

Lemma query_get_missing index c :
  List.find (fun q => BlogPost.id q =? index) (blog_posts (db c)) = None ->
  sqlite_integer index = true ->
  BlogPost_query_get index c = (Return None, c).
Proof. intros H Hk. unfold BlogPost_query_get. now rewrite H, Hk. Qed.

Lemma query_get_cases index c :
  BlogPost_query_get index c =
    (Return (List.find (fun q => BlogPost.id q =? index) (blog_posts (db c))), c)
  \/ BlogPost_query_get index c = (Raise OverflowError, c).
Proof.
  unfold BlogPost_query_get.
  destruct (List.find _ _); [now left|].
  destruct (sqlite_integer index); [now left | now right].
Qed.

Lemma query_get_in_range index c :
  0 <= index < 2 ^ 63 ->
  BlogPost_query_get index c =
    (Return (List.find (fun q => BlogPost.id q =? index) (blog_posts (db c))), c).
Proof.
  intros Hrange. unfold BlogPost_query_get.
  destruct (List.find _ _); [reflexivity|].
  now rewrite sqlite_integer_in_range.
Qed.

Lemma query_get_overflow index c :
  List.find (fun q => BlogPost.id q =? index) (blog_posts (db c)) = None ->
  sqlite_integer index = false ->
  BlogPost_query_get index c = (Raise OverflowError, c).
Proof. intros H Hk. unfold BlogPost_query_get. now rewrite H, Hk. Qed.

(** ** Deleting a post *)

Lemma unparent_post_id k cm : Comment.post_id (unparent k cm) <> Some k.
Proof. unfold unparent. case_decide; cbn; congruence. Qed.

Lemma unparent_id k cm : Comment.id (unparent k cm) = Comment.id cm.
Proof. unfold unparent. now case_decide. Qed.

Lemma delete_post_view_found post_id p c :
  List.find (fun q => BlogPost.id q =? post_id) (blog_posts (db c)) = Some p ->
  delete_post_view post_id c =
    (Return (redirect ep_get_all_posts),
     {| db := {| users := users (db c);
                 blog_posts :=
                   filter (fun q => BlogPost.id q ≠ post_id) (blog_posts (db c));
                 comments := unparent post_id <$> comments (db c) |};
        session := session c; flashes := flashes c |}).
Proof.
  intros H. run_flask. rewrite H. cbn.
  apply find_some_id in H as [_ ->]. reflexivity.
Qed.

(** C2 (as stated, at a concrete store).  The administrator deletes the
    first post of the example store, which has one comment: the request
    succeeds and the post is gone, but the comment row is still stored,
    with its parent reference cleared. *)
Lemma delete_post_keeps_comment_rows :
  let c := as_user example_store (Some 1) in
  nice_comment ∈ comments (db c) /\
  Comment.post_id nice_comment = Some (BlogPost.id first_post) /\
  (delete_post 1 c).1 = Return (redirect ep_get_all_posts) /\
  blog_posts (db (delete_post 1 c).2) = [second_post] /\
  comments (db (delete_post 1 c).2) = [Comment.mk 1 (Some 2) None "nice post"].
Proof. cbn. repeat split; try reflexivity. left. Qed.

(** C2 (amended).  When the administrator deletes a stored post, the
    request succeeds, no post with that identifier is left, users are not
    touched, and every comment row is kept in place: a comment of the
    deleted post has its parent reference set to NULL, any other comment is
    unchanged.  So no comment references the deleted identifier afterwards,
    and none has been removed. *)
Theorem delete_post_unparents_comments :
  forall (c : Ctx) (post_id : Z) (p : BlogPost.t),
    admin_logged_in c ->
    p ∈ blog_posts (db c) -> BlogPost.id p = post_id ->
    let r := delete_post post_id c in
    r.1 = Return (redirect ep_get_all_posts) /\
    (forall q, q ∈ blog_posts (db r.2) <->
               q ∈ blog_posts (db c) /\ BlogPost.id q <> post_id) /\
    (p ∉ blog_posts (db r.2)) /\
    users (db r.2) = users (db c) /\
    length (comments (db r.2)) = length (comments (db c)) /\
    (forall i cm, comments (db c) !! i = Some cm ->
       comments (db r.2) !! i =
         Some (if decide (Comment.post_id cm = Some post_id)
               then Comment.mk (Comment.id cm) (Comment.author_id cm) None
                      (Comment.text cm)
               else cm)) /\
    (forall cm, cm ∈ comments (db r.2) -> Comment.post_id cm <> Some post_id).
Proof.
  intros c post_id p Hadmin Hin Hid r. subst r.
  unfold delete_post. rewrite admin_only_admin by assumption.
  destruct (List.find (fun q => BlogPost.id q =? post_id) (blog_posts (db c)))
    as [p0|] eqn:Hfind.
  2:{ exfalso. eapply find_none_id in Hfind; eauto. }
  rewrite (delete_post_view_found _ _ _ Hfind). cbn.
  split; [reflexivity|].
  split; [intros q; rewrite list_elem_of_filter; tauto|].
  split; [rewrite list_elem_of_filter; tauto|].
  split; [reflexivity|].
  split; [now rewrite length_fmap|].
  split.
  - intros i cm Hi. rewrite list_lookup_fmap, Hi. reflexivity.
  - intros cm Hcm. apply list_elem_of_fmap in Hcm as (cm0 & -> & _).
    apply unparent_post_id.
Qed.

Lemma delete_post_unparents_comments_witness :
  let r := delete_post 1 (as_user example_store (Some 1)) in
  r.1 = Return (redirect ep_get_all_posts) /\
  forall cm, cm ∈ comments (db r.2) -> Comment.post_id cm <> Some 1.
Proof.
  pose proof (delete_post_unparents_comments
                (as_user example_store (Some 1)) 1 first_post) as H.
  cbn zeta in H. destruct H as (H1 & _ & _ & _ & _ & _ & H7).
  - exists alice. split; reflexivity.
  - left.
  - reflexivity.
  - split; assumption.
Defined.

(** ** Creating a post *)

Lemma new_post_fresh_title c u form x :
  current_user_of c = LoggedIn u -> User.id u = 1 ->
  CreatePostForm.title form ∉ BlogPost.title <$> blog_posts (db c) ->
  new_post (Some form, x) c =
    (Return (redirect ep_get_all_posts),
     {| db := {| users := users (db c);
                 blog_posts := blog_posts (db c) ++ [created_post c u form x];
                 comments := comments (db c) |};
        session := session c; flashes := flashes c |}).
Proof.
  intros H Hid Hfresh. unfold new_post.
  rewrite admin_only_admin by (exists u; auto).
  run_flask. rewrite H. cbn. unfold add_commit_post. run_flask.
  rewrite decide_False by assumption. reflexivity.
Qed.

Lemma new_post_taken_title c form x :
  admin_logged_in c ->
  CreatePostForm.title form ∈ BlogPost.title <$> blog_posts (db c) ->
  new_post (Some form, x) c = (Raise IntegrityError, c).
Proof.
  intros Hadmin Htaken. unfold new_post.
  rewrite admin_only_admin by assumption.
  destruct Hadmin as (u & H & _).
  run_flask. rewrite H. cbn. unfold add_commit_post. run_flask.
  rewrite decide_True by assumption. reflexivity.
Qed.

Lemma count_title_absent (t : string) (posts : list BlogPost.t) :
  t ∉ BlogPost.title <$> posts ->
  filter (fun p => BlogPost.title p = t) posts = [].
Proof.
  intros H. induction posts as [|q posts IH]; [reflexivity|].
  rewrite fmap_cons, not_elem_of_cons in H. destruct H as [Hq Hrest].
  rewrite filter_cons_False by congruence. auto.
Qed.

(** C3 (as stated, at a concrete store).  The administrator creates a post
    titled "Third" in the example store and then submits the same form
    again.  The first request succeeds; the second does not end in a
    recoverable duplicate-title outcome: the commit raises [IntegrityError],
    which the view does not catch and Flask does not handle. *)
Lemma duplicate_title_is_unhandled :
  let c := as_user example_store (Some 1) in
  let r1 := new_post (Some hello_form, a_day) c in
  let r2 := new_post (Some hello_form, a_day) r1.2 in
  r1.1 = Return (redirect ep_get_all_posts) /\
  r2.1 = Raise IntegrityError /\
  unhandled r2.1 = true.
Proof. cbn. repeat split. Qed.

(** C3 (amended).  The administrator submits two valid post forms with the
    same title, which no stored post has yet.  The first request stores the
    post and redirects to the index; the second one fails on the unique
    constraint of the title column with an [IntegrityError] that is not
    handled (a server error, not a recoverable duplicate-title outcome) and
    changes nothing; the store then holds exactly one post with that
    title. *)
Theorem new_post_twice_same_title :
  forall (c : Ctx) (form1 form2 : CreatePostForm.t) (x1 x2 : datetime),
    admin_logged_in c ->
    CreatePostForm.title form2 = CreatePostForm.title form1 ->
    CreatePostForm.title form1 ∉ BlogPost.title <$> blog_posts (db c) ->
    let r1 := new_post (Some form1, x1) c in
    let r2 := new_post (Some form2, x2) r1.2 in
    r1.1 = Return (redirect ep_get_all_posts) /\
    r2.1 = Raise IntegrityError /\
    unhandled r2.1 = true /\
    r2.2 = r1.2 /\
    length (filter (fun p => BlogPost.title p = CreatePostForm.title form1)
              (blog_posts (db r2.2))) = 1%nat.
Proof.
  intros c form1 form2 x1 x2 (u & Hu & Hid) Htitle Hfresh r1 r2.
  subst r1 r2.
  rewrite (new_post_fresh_title c u form1 x1) by assumption. cbn [fst snd].
  rewrite new_post_taken_title; cbn [fst snd db blog_posts].
  - split; [reflexivity|]. split; [reflexivity|]. split; [reflexivity|].
    split; [reflexivity|].
    rewrite filter_app, count_title_absent by assumption.
    rewrite filter_cons_True by reflexivity. reflexivity.
  - exists u. split; [|assumption]. exact Hu.
  - rewrite Htitle, fmap_app. apply elem_of_app. right. cbn. left.
Qed.

Lemma new_post_twice_same_title_witness :
  let c := as_user example_store (Some 1) in
  let r1 := new_post (Some hello_form, a_day) c in
  let r2 := new_post (Some hello_form, a_day) r1.2 in
  r1.1 = Return (redirect ep_get_all_posts) /\
  r2.1 = Raise IntegrityError /\
  unhandled r2.1 = true /\
  r2.2 = r1.2 /\
  length (filter (fun p => BlogPost.title p = "Third") (blog_posts (db r2.2)))
  = 1%nat.
Proof.
  apply (new_post_twice_same_title (as_user example_store (Some 1))
           hello_form hello_form a_day a_day).
  - exists alice. split; reflexivity.
  - reflexivity.
  - cbn. rewrite !not_elem_of_cons. repeat split; try discriminate.
    apply not_elem_of_nil.
Defined.

(** ** Requests for a post that does not exist *)

(** C4 (as stated, at a concrete store).  The example store has no post 7.
    The administrator's requests to edit and to delete post 7 do not end in
    a handled not-found outcome: each ends in an exception that Flask does
    not handle. *)
Lemma missing_post_is_unhandled :
  let c := as_user example_store (Some 1) in
  (forall p, p ∈ blog_posts (db c) -> BlogPost.id p <> 7) /\
  (edit_post (7, Some hello_form) c).1 = Raise AttributeError /\
  (delete_post 7 c).1 = Raise UnmappedInstanceError /\
  unhandled (edit_post (7, Some hello_form) c).1 = true /\
  unhandled (delete_post 7 c).1 = true.
Proof.
  cbn. repeat split; try reflexivity.
  intros p Hp. rewrite !elem_of_cons in Hp.
  destruct Hp as [-> | [-> | Hp]]; cbn; try lia.
  now apply elem_of_nil in Hp.
Qed.

(** C4 (amended).  For an identifier in the range of the database's
    integers (from 0, as the route accepts, below 2^63) that no stored post
    has, the administrator's edit request ends in an unhandled
    [AttributeError] and the delete request in an unhandled
    [UnmappedInstanceError]; neither changes the store, the session or the
    flashed messages. *)
Theorem missing_post_raises_and_keeps_store :
  forall (c : Ctx) (post_id : Z) (form : option CreatePostForm.t),
    admin_logged_in c ->
    0 <= post_id < 2 ^ 63 ->
    (forall p, p ∈ blog_posts (db c) -> BlogPost.id p <> post_id) ->
    edit_post (post_id, form) c = (Raise AttributeError, c) /\
    delete_post post_id c = (Raise UnmappedInstanceError, c) /\
    unhandled (edit_post (post_id, form) c).1 = true /\
    unhandled (delete_post post_id c).1 = true.
Proof.
  intros c post_id form Hadmin Hrange Hnone.
  apply find_none_id in Hnone.
  pose proof (query_get_missing post_id c Hnone
                (sqlite_integer_in_range _ Hrange)) as Hget.
  assert (He : edit_post (post_id, form) c = (Raise AttributeError, c)).
  { unfold edit_post. rewrite admin_only_admin by assumption.
    unfold edit_post_view, bind. now rewrite Hget. }
  assert (Hd : delete_post post_id c = (Raise UnmappedInstanceError, c)).
  { unfold delete_post. rewrite admin_only_admin by assumption.
    unfold delete_post_view, bind. now rewrite Hget. }
  rewrite He, Hd. repeat split.
Qed.

Lemma missing_post_raises_and_keeps_store_witness :
  let c := as_user example_store (Some 1) in
  edit_post (7, Some hello_form) c = (Raise AttributeError, c) /\
  delete_post 7 c = (Raise UnmappedInstanceError, c).
Proof.
  destruct (missing_post_raises_and_keeps_store
              (as_user example_store (Some 1)) 7 (Some hello_form))
    as (He & Hd & _).
  - exists alice. split; reflexivity.
  - lia.
  - intros p Hp. cbn in Hp. rewrite !elem_of_cons in Hp.
    destruct Hp as [-> | [-> | Hp]]; cbn; try lia.
    now apply elem_of_nil in Hp.
  - split; assumption.
Defined.

(** ** Commenting *)

Lemma next_id_above (ids : list Z) k : k ∈ ids -> k < next_id ids.
Proof.
  unfold next_id. induction ids as [|i ids IH]; intros Hk.
  - now apply elem_of_nil in Hk.
  - apply elem_of_cons in Hk as [->|Hk]; cbn; [lia|].
    specialize (IH Hk). lia.
Qed.

Lemma next_id_fresh (ids : list Z) : next_id ids ∉ ids.
Proof. intros H. apply next_id_above in H. lia. Qed.

Lemma find_post_of_member (posts : list BlogPost.t) p :
  p ∈ posts ->
  exists q, List.find (fun q => BlogPost.id q =? BlogPost.id p) posts = Some q.
Proof.
  intros Hp.
  destruct (List.find _ posts) as [q|] eqn:Hfind; [eauto|].
  exfalso. eapply find_none_id in Hfind; eauto.
Qed.

(** C7.  A valid comment form submitted to the page of a stored post by a
    logged-in user stores one new comment row, whose author is that user
    and whose parent is that post, and changes nothing else; submitted
    without a login, to the page of an identifier in the range of the
    database's integers (from 0, as the route accepts, below 2^63), it
    stores nothing, flashes the request to log in and redirects to the
    login page. *)
Theorem show_post_comment_requires_login :
  forall (c : Ctx) (index : Z) (form : UserComment.t),
    (forall u p,
        current_user_of c = LoggedIn u ->
        p ∈ blog_posts (db c) -> BlogPost.id p = index ->
        let r := show_post index (Some form) c in
        exists cm shown,
          r.1 = Return (render_template "post.html" (post_page (Some shown))) /\
          BlogPost.id shown = index /\
          comments (db r.2) = (comments (db c) ++ [cm])%list /\
          Comment.author_id cm = Some (User.id u) /\
          Comment.post_id cm = Some (BlogPost.id p) /\
          Comment.text cm = UserComment.comment form /\
          (Comment.id cm ∉ Comment.id <$> comments (db c)) /\
          users (db r.2) = users (db c) /\
          blog_posts (db r.2) = blog_posts (db c)) /\
    (current_user_of c = AnonymousUserMixin ->
     0 <= index < 2 ^ 63 ->
        show_post index (Some form) c =
          (Return (redirect ep_login),
           {| db := db c; session := session c;
              flashes := flashes c ++ ["You need to login to comment!!!"] |})).
Proof.
  intros c index form. split.
  - intros u p Hu Hp Hid r. subst r.
    destruct (find_post_of_member _ _ Hp) as [q Hq]. rewrite Hid in Hq.
    pose proof (find_some_id _ _ _ Hq) as [_ Hqid].
    run_flask. rewrite Hq, Hu. cbn.
    unfold add_commit_comment. run_flask. cbn.
    eexists _, q. repeat split; try reflexivity; try assumption.
    + cbn. congruence.
    + cbn. apply next_id_fresh.
  - intros Hanon Hrange. unfold show_post, bind.
    rewrite (query_get_in_range _ _ Hrange). run_flask. now rewrite Hanon.
Qed.

Lemma show_post_comment_requires_login_witness :
  (exists cm,
      comments (db (show_post 2 (Some (UserComment.mk "me too"))
                      (as_user example_store (Some 2))).2)
      = (comments example_store ++ [cm])%list /\
      Comment.author_id cm = Some 2 /\ Comment.post_id cm = Some 2) /\
  (show_post 2 (Some (UserComment.mk "me too")) (as_user example_store None)).1
  = Return (redirect ep_login).
Proof.
  destruct (show_post_comment_requires_login
              (as_user example_store (Some 2)) 2 (UserComment.mk "me too"))
    as [Hin _].
  destruct (show_post_comment_requires_login
              (as_user example_store None) 2 (UserComment.mk "me too"))
    as [_ Hanon].
  split.
  - destruct (Hin bob second_post) as (cm & shown & _ & _ & Hc & Ha & Hp & _).
    + reflexivity.
    + right. left.
    + reflexivity.
    + exists cm. repeat split; assumption.
  - rewrite Hanon; [reflexivity | reflexivity | lia].
Defined.

(** ** What a request can do to the store *)

Lemma current_user_stored c u :
  current_user_of c = LoggedIn u -> u ∈ users (db c).
Proof.
  unfold current_user_of, load_user, User_query_get.
  destruct (session c) as [k|]; [|discriminate].
  destruct (List.find _ _) as [v|] eqn:Hfind; [|discriminate].
  intros [= <-]. apply find_some in Hfind as [Hin _].
  now apply list_elem_of_In.
Qed.

Lemma admin_only_store_step {A} (f : A -> Flask Response) args c :
  (forall c', store_step (db c') (db (f args c').2)) ->
  store_step (db c) (db (admin_only f args c).2).
Proof.
  intros Hf.
  destruct (admin_only_runs_only_for_admin f args c) as [Hadmin|[e He]].
  - rewrite admin_only_admin by assumption. apply Hf.
  - rewrite He. constructor.
Qed.

Lemma show_post_store_step index form c :
  store_step (db c) (db (show_post index form c).2).
Proof.
  unfold show_post, bind.
  destruct (query_get_cases index c) as [-> | ->]; [|constructor].
  run_flask.
  destruct (List.find _ (blog_posts (db c))) as [p|] eqn:Hfind;
    (destruct form as [form|]; [|constructor]);
    (destruct (current_user_of c) as [|u] eqn:Hu; cbn; [constructor|]);
    unfold add_commit_comment; run_flask; cbn.
  - eapply (step_add_comment _ _ u (Some p));
      [reflexivity | now apply current_user_stored | reflexivity | | reflexivity].
    intros q [= <-]. now apply find_some_id in Hfind as [? _].
  - eapply (step_add_comment _ _ u None);
      [reflexivity | now apply current_user_stored | reflexivity | | reflexivity].
    intros q [=].
Qed.

Lemma new_post_view_store_step args c :
  store_step (db c) (db (new_post_view args c).2).
Proof.
  destruct args as [[form|] x]; run_flask; [|constructor].
  destruct (current_user_of c) as [|u]; cbn; [constructor|].
  unfold add_commit_post. run_flask.
  case_decide; cbn; constructor; [reflexivity | assumption].
Qed.

Lemma edit_post_view_store_step args c :
  store_step (db c) (db (edit_post_view args c).2).
Proof.
  destruct args as [post_id form]. unfold edit_post_view, bind.
  destruct (query_get_cases post_id c) as [-> | ->]; [|constructor].
  run_flask.
  destruct (List.find _ (blog_posts (db c))) as [p|]; cbn; [|constructor].
  destruct form as [form|]; [|constructor].
  unfold commit_dirty_post. destruct (existsb _ _) eqn:Hother; cbn; [constructor|].
  apply (step_update_post _
           (BlogPost.mk (BlogPost.id p) (BlogPost.author_id p)
              (CreatePostForm.title form) (CreatePostForm.subtitle form)
              (BlogPost.date p) (CreatePostForm.body form)
              (CreatePostForm.img_url form))).
  cbn in *. intros q Hq Htitle.
  destruct (Z.eq_dec (BlogPost.id q) (BlogPost.id p)) as [Heq|Hne]; [exact Heq|].
  exfalso. apply not_true_iff_false in Hother. apply Hother.
  apply existsb_exists. exists q. split; [now apply list_elem_of_In|].
  apply andb_true_iff. split; [now apply String.eqb_eq|].
  apply negb_true_iff. now apply Z.eqb_neq.
Qed.

Lemma delete_post_view_store_step post_id c :
  store_step (db c) (db (delete_post_view post_id c).2).
Proof.
  destruct (List.find (fun q => BlogPost.id q =? post_id) (blog_posts (db c)))
    as [p|] eqn:Hfind.
  - rewrite (delete_post_view_found _ _ _ Hfind). cbn. constructor.
  - unfold delete_post_view, bind.
    destruct (query_get_cases post_id c) as [-> | ->]; [|constructor].
    rewrite Hfind. cbn. constructor.
Qed.

Lemma register_store_step gen form salt c :
  store_step (db c) (db (register gen form salt c).2).
Proof.
  destruct form as [form|]; run_flask; [|constructor].
  case_decide; cbn; [|constructor].
  unfold add_commit_user. case_decide; cbn; constructor;
    [reflexivity | assumption].
Qed.

Lemma login_store_step chk form c :
  store_step (db c) (db (login chk form c).2).
Proof.
  destruct form as [form|]; run_flask; [|constructor].
  destruct (List.find _ _) as [u|]; cbn; [|constructor].
  destruct (chk _ _); cbn; constructor.
Qed.

Lemma dispatch_store_step gen chk r c :
  store_step (db c) (db (dispatch gen chk r c).2).
Proof.
  destruct r; cbn [dispatch].
  - constructor.
  - apply show_post_store_step.
  - apply admin_only_store_step, new_post_view_store_step.
  - apply admin_only_store_step, edit_post_view_store_step.
  - apply admin_only_store_step, delete_post_view_store_step.
  - constructor.
  - constructor.
  - apply register_store_step.
  - apply login_store_step.
  - constructor.
Qed.

Lemma store_step_keeps_links s s' :
  store_step s s' ->
  (forall cm, cm ∈ comments s -> comment_linked s cm) ->
  forall cm, cm ∈ comments s' -> comment_linked s' cm.
Proof.
  intros Hstep Hinv.
  destruct Hstep as [|u _ _|p _ _|cm0 u parent _ Hu Hauthor Hparent Hpost|p _|k];
    cbn; intros cm Hcm.
  - auto.
  - destruct (Hinv cm Hcm) as [(v & Hv & Ha) Hp]. split; [|exact Hp].
    exists v. split; [apply elem_of_app; now left | exact Ha].
  - destruct (Hinv cm Hcm) as [Ha [Hp|(q & Hq & Hp)]]; (split; [exact Ha|]);
      [now left|]. right. exists q. split; [apply elem_of_app; now left|exact Hp].
  - apply elem_of_app in Hcm as [Hcm|Hcm]; [now apply Hinv|].
    apply list_elem_of_singleton in Hcm as ->. split; [now exists u|].
    cbn. destruct parent as [p|]; [right|now left].
    exists p. split; [now apply Hparent | exact Hpost].
  - destruct (Hinv cm Hcm) as [Ha [Hp|(q & Hq & Hp)]]; (split; [exact Ha|]);
      [now left|]. right. cbn.
    exists (if BlogPost.id q =? BlogPost.id p then p else q). split.
    + apply list_elem_of_fmap. now exists q.
    + destruct (Z.eqb_spec (BlogPost.id q) (BlogPost.id p)); congruence.
  - apply list_elem_of_fmap in Hcm as (cm0 & -> & Hcm0).
    destruct (Hinv cm0 Hcm0) as [Ha Hp]. unfold unparent.
    case_decide as Hk; (split; [exact Ha|]); cbn; [now left|].
    destruct Hp as [Hp|(q & Hq & Hp)]; [now left|]. right.
    exists q. split; [|exact Hp]. apply list_elem_of_filter. split; [|exact Hq].
    congruence.
Qed.

(** ** Keys stay unique *)

Lemma NoDup_snoc_fresh {A} (l : list A) x : NoDup l -> x ∉ l -> NoDup (l ++ [x]).
Proof.
  intros Hl Hx. apply NoDup_app. split; [exact Hl|]. split.
  - intros y Hy Hyx. apply list_elem_of_singleton in Hyx. now subst.
  - apply NoDup_singleton.
Qed.

Lemma NoDup_fmap_filter {A B} (f : A -> B) (P : A -> Prop)
    `{forall x, Decision (P x)} (l : list A) :
  NoDup (f <$> l) -> NoDup (f <$> filter P l).
Proof.
  induction l as [|x l IH]; intros Hnd; [constructor|].
  rewrite fmap_cons in Hnd. apply NoDup_cons in Hnd as [Hx Hnd].
  destruct (decide (P x)).
  - rewrite filter_cons_True by assumption. rewrite fmap_cons.
    apply NoDup_cons. split; [|auto]. intros Hin. apply Hx.
    apply list_elem_of_fmap in Hin as (y & -> & Hy).
    apply list_elem_of_filter in Hy as [_ Hy].
    apply list_elem_of_fmap. now exists y.
  - rewrite filter_cons_False by assumption. auto.
Qed.

Lemma update_keeps_ids (p : BlogPost.t) (posts : list BlogPost.t) :
  BlogPost.id <$>
    ((fun q => if BlogPost.id q =? BlogPost.id p then p else q) <$> posts)
  = BlogPost.id <$> posts.
Proof.
  rewrite <- list_fmap_compose. apply list_fmap_ext. intros i q _. cbn.
  destruct (Z.eqb_spec (BlogPost.id q) (BlogPost.id p)); congruence.
Qed.

Lemma update_keeps_titles_unique (p : BlogPost.t) (posts : list BlogPost.t) :
  NoDup (BlogPost.id <$> posts) ->
  NoDup (BlogPost.title <$> posts) ->
  (forall q, q ∈ posts -> BlogPost.title q = BlogPost.title p ->
             BlogPost.id q = BlogPost.id p) ->
  NoDup (BlogPost.title <$>
           ((fun q => if BlogPost.id q =? BlogPost.id p then p else q) <$> posts)).
Proof.
  induction posts as [|x posts IH]; intros Hids Htitles Hother; [constructor|].
  rewrite fmap_cons in Hids. rewrite fmap_cons in Htitles.
  apply NoDup_cons in Hids as [Hxid Hids].
  apply NoDup_cons in Htitles as [Hxt Htitles].
  rewrite !fmap_cons. apply NoDup_cons. split.
  - intros Hin. apply list_elem_of_fmap in Hin as (y' & Hy' & Hin).
    apply list_elem_of_fmap in Hin as (y & -> & Hy).
    assert (Hyl : y ∈ x :: posts) by now right.
    assert (Hxl : x ∈ x :: posts) by left.
    destruct (Z.eqb_spec (BlogPost.id x) (BlogPost.id p)) as [Hx|Hx];
      destruct (Z.eqb_spec (BlogPost.id y) (BlogPost.id p)) as [Hyp|Hyp].
    + apply Hxid. rewrite Hx, <- Hyp. apply list_elem_of_fmap. now exists y.
    + apply Hyp. apply Hother; [exact Hyl | congruence].
    + apply Hx. apply Hother; [exact Hxl | congruence].
    + apply Hxt. rewrite Hy'. apply list_elem_of_fmap. now exists y.
  - apply IH; try assumption. intros q Hq. apply Hother. now right.
Qed.

Lemma unparent_keeps_ids k (l : list Comment.t) :
  Comment.id <$> (unparent k <$> l) = Comment.id <$> l.
Proof.
  rewrite <- list_fmap_compose. apply list_fmap_ext. intros i cm _.
  apply unparent_id.
Qed.

Lemma store_step_keeps_keys s s' :
  store_step s s' -> keys_unique s -> keys_unique s'.
Proof.
  intros Hstep [Hu He Hp Ht Hc].
  destruct Hstep as [|u Hid Hemail|p Hid Htitle|cm u parent Hid _ _ _ _|p Hother|k];
    constructor; cbn; try assumption.
  - rewrite fmap_app. apply NoDup_snoc_fresh; [assumption|].
    cbn. rewrite Hid. apply next_id_fresh.
  - rewrite fmap_app. now apply NoDup_snoc_fresh.
  - rewrite fmap_app. apply NoDup_snoc_fresh; [assumption|].
    cbn. rewrite Hid. apply next_id_fresh.
  - rewrite fmap_app. now apply NoDup_snoc_fresh.
  - rewrite fmap_app. apply NoDup_snoc_fresh; [assumption|].
    cbn. rewrite Hid. apply next_id_fresh.
  - now rewrite update_keeps_ids.
  - now apply update_keeps_titles_unique.
  - now apply NoDup_fmap_filter.
  - now apply NoDup_fmap_filter.
  - now rewrite unparent_keeps_ids.
Qed.

(** X5.  In every store reachable from the empty database the primary keys and
    the unique columns hold no duplicates: the uniqueness assumed of a store
    in the statements about registration, login and editing is met by every
    store the application produces. *)
Lemma reachable_keys_unique gen chk s : reachable gen chk s -> keys_unique s.
Proof.
  induction 1 as [|s cookie fl r Hs IH].
  - constructor; cbn; constructor.
  - apply (store_step_keeps_keys s); [|exact IH].
    apply (dispatch_store_step gen chk r
             {| db := s; session := cookie; flashes := fl |}).
Qed.

Lemma reachable_links gen chk s :
  reachable gen chk s -> forall cm, cm ∈ comments s -> comment_linked s cm.
Proof.
  induction 1 as [|s cookie fl r Hs IH].
  - intros cm Hcm. now apply elem_of_nil in Hcm.
  - apply (store_step_keeps_links s); [|exact IH].
    apply (dispatch_store_step gen chk r
             {| db := s; session := cookie; flashes := fl |}).
Qed.

(** C5 (as stated, at a concrete run).  Alice registers on an empty
    database and then submits a comment to the page of post 7, which does
    not exist: the store reached holds a comment without a parent post. *)
Lemma reachable_parentless_comment :
  let s := {| users := [alice]; blog_posts := [];
              comments := [Comment.mk 1 (Some 1) None "nice post"] |} in
  s = db (dispatch example_generate example_check
            (ANY_post 7 (Some (UserComment.mk "nice post")))
            (as_user
               (db (dispatch example_generate example_check
                      (ANY_register (Some alice_form) "s1")
                      (as_user create_all None)).2)
               (Some 1))).2 /\
  reachable example_generate example_check s /\
  exists cm, cm ∈ comments s /\
             ~ exists p, p ∈ blog_posts s /\
                         Comment.post_id cm = Some (BlogPost.id p).
Proof.
  cbn zeta. split; [reflexivity|]. split.
  - exact (reachable_request example_generate example_check _ (Some 1) []
             (ANY_post 7 (Some (UserComment.mk "nice post")))
             (reachable_request example_generate example_check _ None []
                (ANY_register (Some alice_form) "s1")
                (reachable_create_all _ _))).
  - eexists. split; [left|]. intros (p & Hp & _). now apply elem_of_nil in Hp.
Qed.

(** C5 (amended).  In every store reachable from the empty database, the
    author of every stored comment is a stored user, and the parent
    reference of every stored comment is either NULL or the identifier of a
    stored post: no comment references a post that is not there. *)
Theorem reachable_comments_reference_stored_rows :
  forall gen chk (s : Store),
    reachable gen chk s ->
    forall cm, cm ∈ comments s ->
      (exists u, u ∈ users s /\ Comment.author_id cm = Some (User.id u)) /\
      (Comment.post_id cm = None \/
       exists p, p ∈ blog_posts s /\ Comment.post_id cm = Some (BlogPost.id p)).
Proof. intros gen chk s Hs cm Hcm. exact (reachable_links gen chk s Hs cm Hcm). Qed.

Lemma reachable_comments_reference_stored_rows_witness :
  let cm := Comment.mk 1 (Some 1) None "nice post" in
  let s := {| users := [alice]; blog_posts := []; comments := [cm] |} in
  (exists u, u ∈ users s /\ Comment.author_id cm = Some (User.id u)) /\
  (Comment.post_id cm = None \/
   exists p, p ∈ blog_posts s /\ Comment.post_id cm = Some (BlogPost.id p)).
Proof.
  cbn zeta.
  apply (reachable_comments_reference_stored_rows example_generate example_check).
  - exact (reachable_request example_generate example_check _ (Some 1) []
             (ANY_post 7 (Some (UserComment.mk "nice post")))
             (reachable_request example_generate example_check _ None []
                (ANY_register (Some alice_form) "s1")
                (reachable_create_all _ _))).
  - left.
Defined.

(** ** Registration *)

Lemma register_fresh_email gen form salt c :
  RegisterNewUser.email form ∉ User.email <$> users (db c) ->
  register gen (Some form) salt c =
    (Return (redirect ep_get_all_posts),
     {| db := {| users :=
                   users (db c) ++ [registered_user gen (db c) form salt];
                 blog_posts := blog_posts (db c);
                 comments := comments (db c) |};
        session := Some (next_id (User.id <$> users (db c)));
        flashes := flashes c |}).
Proof.
  intros Hfresh. run_flask. rewrite decide_True by assumption.
  unfold add_commit_user. run_flask. rewrite decide_False by assumption.
  reflexivity.
Qed.

Lemma register_taken_email gen form salt c :
  RegisterNewUser.email form ∈ User.email <$> users (db c) ->
  register gen (Some form) salt c =
    (Return (redirect ep_login),
     {| db := db c; session := session c;
        flashes := flashes c ++ ["This email already exists, login instead!!!."] |}).
Proof.
  intros Htaken. run_flask. rewrite decide_False by tauto. reflexivity.
Qed.

Lemma count_email_absent (e : string) (l : list User.t) :
  e ∉ User.email <$> l -> filter (fun u => User.email u = e) l = [].
Proof.
  induction l as [|v l IH]; [reflexivity|]. intros H.
  rewrite fmap_cons, not_elem_of_cons in H. destruct H as [Hv Hl].
  rewrite filter_cons_False by congruence. auto.
Qed.

Lemma count_email_unique (e : string) (l : list User.t) :
  NoDup (User.email <$> l) -> e ∈ User.email <$> l ->
  length (filter (fun u => User.email u = e) l) = 1%nat.
Proof.
  induction l as [|v l IH]; intros Hnd He.
  - now apply elem_of_nil in He.
  - rewrite fmap_cons in Hnd, He. apply NoDup_cons in Hnd as [Hv Hnd].
    destruct (decide (User.email v = e)) as [Heq|Hne].
    + rewrite filter_cons_True by assumption. subst e.
      now rewrite count_email_absent.
    + rewrite filter_cons_False by assumption. apply IH; [assumption|].
      apply elem_of_cons in He as [He|He]; congruence.
Qed.

(** C6.  Two valid registration forms with the same email are submitted one
    after the other to a store whose emails are unique.  The second request
    is answered with the flashed duplicate-email message and a redirect to
    the login page, and leaves the store and the session exactly as the
    first request left them; exactly one user with that email is stored.
    When the email was new, the first request succeeds and adds that one
    user. *)
Theorem register_twice_same_email :
  forall gen (c : Ctx) (form1 form2 : RegisterNewUser.t) (salt1 salt2 : string),
    NoDup (User.email <$> users (db c)) ->
    RegisterNewUser.email form2 = RegisterNewUser.email form1 ->
    let r1 := register gen (Some form1) salt1 c in
    let r2 := register gen (Some form2) salt2 r1.2 in
    r2.1 = Return (redirect ep_login) /\
    db r2.2 = db r1.2 /\
    session r2.2 = session r1.2 /\
    flashes r2.2 =
      (flashes r1.2 ++ ["This email already exists, login instead!!!."])%list /\
    length (filter (fun u => User.email u = RegisterNewUser.email form1)
              (users (db r2.2))) = 1%nat /\
    (RegisterNewUser.email form1 ∉ User.email <$> users (db c) ->
       r1.1 = Return (redirect ep_get_all_posts) /\
       users (db r1.2) =
         (users (db c) ++ [registered_user gen (db c) form1 salt1])%list).
Proof.
  intros gen c form1 form2 salt1 salt2 Hnd Hemail r1 r2. subst r1 r2.
  destruct (decide (RegisterNewUser.email form1 ∈ User.email <$> users (db c)))
    as [Hin|Hout].
  - rewrite (register_taken_email gen form1) by assumption. cbn [fst snd].
    rewrite register_taken_email by (cbn; congruence). cbn.
    repeat split; try tauto. now apply count_email_unique.
  - rewrite (register_fresh_email gen form1) by assumption. cbn [fst snd].
    rewrite register_taken_email.
    + cbn. repeat split.
      rewrite filter_app, count_email_absent by assumption.
      rewrite filter_cons_True by reflexivity. reflexivity.
    + cbn. rewrite Hemail, fmap_app. apply elem_of_app. right. left.
Qed.

Lemma register_twice_same_email_witness :
  let r1 := register example_generate (Some alice_form) "s1" (as_user create_all None) in
  let r2 := register example_generate
              (Some (RegisterNewUser.mk "alice@example.com" "other" "Alice B"))
              "s9" r1.2 in
  r2.1 = Return (redirect ep_login) /\
  users (db r2.2) = [alice].
Proof.
  destruct (register_twice_same_email example_generate (as_user create_all None)
              alice_form (RegisterNewUser.mk "alice@example.com" "other" "Alice B")
              "s1" "s9") as (H1 & H2 & _).
  - cbn. constructor.
  - reflexivity.
  - split; [exact H1|]. rewrite H2. reflexivity.
Defined.

(** ** Logging in *)

Lemma find_email_none (e : string) (l : list User.t) :
  (forall u, u ∈ l -> User.email u <> e) ->
  List.find (fun u => (User.email u =? e)%string) l = None.
Proof.
  induction l as [|v l IH]; intros H; [reflexivity|]. cbn.
  destruct (String.eqb_spec (User.email v) e) as [Heq|_].
  - exfalso. apply (H v); [left | exact Heq].
  - apply IH. intros u Hu. apply H. now right.
Qed.

Lemma find_email_unique (l : list User.t) u :
  NoDup (User.email <$> l) -> u ∈ l ->
  List.find (fun v => (User.email v =? User.email u)%string) l = Some u.
Proof.
  induction l as [|v l IH]; intros Hnd Hu.
  - now apply elem_of_nil in Hu.
  - rewrite fmap_cons in Hnd. apply NoDup_cons in Hnd as [Hv Hnd]. cbn.
    destruct (String.eqb_spec (User.email v) (User.email u)) as [Heq|Hne].
    + apply elem_of_cons in Hu as [->|Hu]; [reflexivity|].
      exfalso. apply Hv. rewrite Heq. apply list_elem_of_fmap. now exists u.
    + apply elem_of_cons in Hu as [->|Hu]; [congruence|]. now apply IH.
Qed.

Lemma login_no_such_email chk email password c :
  List.find (fun v => (User.email v =? email)%string) (users (db c)) = None ->
  login chk (Some (Login.mk email password)) c =
    (Return (render_template "login.html" no_args),
     {| db := db c; session := session c;
        flashes := flashes c ++ ["Email does not exist, please try again."] |}).
Proof. intros H. run_flask. cbn. now rewrite H. Qed.

Lemma login_found chk email password c u :
  List.find (fun v => (User.email v =? email)%string) (users (db c)) = Some u ->
  login chk (Some (Login.mk email password)) c =
    if chk (User.password u) password
    then (Return (redirect ep_get_all_posts),
          {| db := db c; session := Some (User.id u); flashes := flashes c |})
    else (Return (render_template "login.html" no_args),
          {| db := db c; session := session c;
             flashes := flashes c ++ ["Password is incorrect"] |}).
Proof.
  intros H. run_flask. cbn. rewrite H. now destruct (chk _ _).
Qed.

(** C8.  A valid login form is submitted to a store whose emails are
    unique.  When no stored user has exactly that email, the answer is the
    login page with the flashed message that the email does not exist.
    When a stored user has that email and the password does not verify
    against the stored hash, the answer is the login page with the flashed
    message that the password is incorrect, and the session is not changed.
    When the password verifies, the session is set to that user and the
    answer is the redirect to the index.  The redirect is the answer only
    in this last case. *)
Theorem login_outcomes :
  forall chk (c : Ctx) (email password : string),
    NoDup (User.email <$> users (db c)) ->
    let r := login chk (Some (Login.mk email password)) c in
    ((forall u, u ∈ users (db c) -> User.email u <> email) ->
       r = (Return (render_template "login.html" no_args),
            {| db := db c; session := session c;
               flashes :=
                 flashes c ++ ["Email does not exist, please try again."] |})) /\
    (forall u, u ∈ users (db c) -> User.email u = email ->
       chk (User.password u) password = false ->
       r = (Return (render_template "login.html" no_args),
            {| db := db c; session := session c;
               flashes := flashes c ++ ["Password is incorrect"] |})) /\
    (forall u, u ∈ users (db c) -> User.email u = email ->
       chk (User.password u) password = true ->
       r = (Return (redirect ep_get_all_posts),
            {| db := db c; session := Some (User.id u); flashes := flashes c |})) /\
    (r.1 = Return (redirect ep_get_all_posts) <->
       exists u, u ∈ users (db c) /\ User.email u = email /\
                 chk (User.password u) password = true).
Proof.
  intros chk c email password Hnd r. subst r.
  assert (Hfound : forall u, u ∈ users (db c) -> User.email u = email ->
            List.find (fun v => (User.email v =? email)%string) (users (db c))
            = Some u).
  { intros u Hu <-. now apply find_email_unique. }
  split; [|split; [|split]].
  - intros Hnone. now apply login_no_such_email, find_email_none.
  - intros u Hu He Hchk. rewrite (login_found _ _ _ _ u) by auto.
    now rewrite Hchk.
  - intros u Hu He Hchk. rewrite (login_found _ _ _ _ u) by auto.
    now rewrite Hchk.
  - destruct (List.find (fun v => (User.email v =? email)%string) (users (db c)))
      as [u|] eqn:Hfind.
    + rewrite (login_found _ _ _ _ u Hfind).
      apply find_some in Hfind as [Hin He].
      apply list_elem_of_In in Hin. apply String.eqb_eq in He.
      destruct (chk (User.password u) password) eqn:Hchk; cbn.
      * split; [|reflexivity]. intros _. exists u. auto.
      * split; [discriminate|]. intros (v & Hv & Hve & Hvc).
        specialize (Hfound v Hv Hve). congruence.
    + rewrite (login_no_such_email _ _ _ _ Hfind). cbn.
      split; [discriminate|]. intros (v & Hv & Hve & _).
      specialize (Hfound v Hv Hve). discriminate.
Qed.

Lemma login_outcomes_witness :
  let c := as_user example_store None in
  (login example_check (Some (Login.mk "carol@example.com" "x")) c).1
    = Return (render_template "login.html" no_args) /\
  flashes (login example_check (Some (Login.mk "carol@example.com" "x")) c).2
    = ["Email does not exist, please try again."] /\
  flashes (login example_check (Some (Login.mk "bob@example.com" "pw123")) c).2
    = ["Password is incorrect"] /\
  session (login example_check (Some (Login.mk "bob@example.com" "hunter2")) c).2
    = Some 2.
Proof.
  assert (Hnd : NoDup (User.email <$> users (db (as_user example_store None)))).
  { cbn. repeat constructor; rewrite ?not_elem_of_cons;
      repeat split; try discriminate; apply not_elem_of_nil. }
  assert (Hbob : bob ∈ users (db (as_user example_store None))) by (right; left).
  destruct (login_outcomes example_check (as_user example_store None)
              "carol@example.com" "x" Hnd) as (Ha & _).
  destruct (login_outcomes example_check (as_user example_store None)
              "bob@example.com" "pw123" Hnd) as (_ & Hb & _).
  destruct (login_outcomes example_check (as_user example_store None)
              "bob@example.com" "hunter2" Hnd) as (_ & _ & Hc & _).
  cbn zeta. rewrite Ha, (Hb bob), (Hc bob); try reflexivity; try assumption.
  - repeat split.
  - intros u Hu. cbn in Hu. rewrite !elem_of_cons in Hu.
    destruct Hu as [-> | [-> | Hu]]; try discriminate.
    now apply elem_of_nil in Hu.
Defined.

(** ** Registering, then logging in *)

Lemma example_hash_verifies salt password :
  example_check (example_generate salt password) password = true.
Proof. apply String.eqb_refl. Qed.

Lemma register_all_distinct gen rs : forall c,
  NoDup (RegisterNewUser.email ∘ fst <$> rs) ->
  (forall r, r ∈ rs -> RegisterNewUser.email r.1 ∉ User.email <$> users (db c)) ->
  (register_all gen rs c).1
    = replicate (length rs) (Return (redirect ep_get_all_posts)) /\
  exists new,
    users (db (register_all gen rs c).2) = (users (db c) ++ new)%list /\
    Forall2 (stored_for gen) rs new.
Proof.
  induction rs as [|[form salt] rs IH]; intros c Hnd Hfresh.
  - cbn. split; [reflexivity|]. exists []. split; [now rewrite app_nil_r|constructor].
  - rewrite fmap_cons in Hnd. apply NoDup_cons in Hnd as [Hhd Hnd].
    cbn [register_all].
    rewrite register_fresh_email by (apply (Hfresh (form, salt)); left).
    set (c1 := {| db := _; session := _; flashes := _ |}).
    destruct (IH c1 Hnd) as [Hresp (new & Husers & Hstored)].
    { intros r Hr. subst c1. cbn. rewrite fmap_app, elem_of_app.
      intros [Hold|Hnew].
      - apply (Hfresh r); [now right | exact Hold].
      - cbn in Hnew. apply list_elem_of_singleton in Hnew.
        apply Hhd. apply list_elem_of_fmap. exists r. split; [|exact Hr].
        cbn. congruence. }
    destruct (register_all gen rs c1) as [l c2]. cbn in *.
    split; [now rewrite Hresp|].
    exists (registered_user gen (db c) form salt :: new). split.
    + rewrite Husers. now rewrite <- app_assoc.
    + constructor; [|exact Hstored]. repeat split.
Qed.

Lemma find_email_app (e : string) (old new : list User.t) :
  (forall u, u ∈ old -> User.email u <> e) ->
  List.find (fun v => (User.email v =? e)%string) (old ++ new)
  = List.find (fun v => (User.email v =? e)%string) new.
Proof.
  induction old as [|v old IH]; intros H; [reflexivity|]. cbn.
  destruct (String.eqb_spec (User.email v) e) as [Heq|_].
  - exfalso. apply (H v); [left | exact Heq].
  - apply IH. intros u Hu. apply H. now right.
Qed.

Lemma find_stored_for gen rs new : 
  Forall2 (stored_for gen) rs new ->
  NoDup (RegisterNewUser.email ∘ fst <$> rs) ->
  forall r, r ∈ rs ->
  exists u, u ∈ new /\ stored_for gen r u /\
    List.find (fun v => (User.email v =? RegisterNewUser.email r.1)%string) new
    = Some u.
Proof.
  induction 1 as [|r0 u0 rs new Hst _ IH]; intros Hnd r Hr.
  - now apply elem_of_nil in Hr.
  - rewrite fmap_cons in Hnd. apply NoDup_cons in Hnd as [Hhd Hnd].
    apply elem_of_cons in Hr as [->|Hr].
    + exists u0. split; [left|]. split; [exact Hst|]. cbn.
      destruct Hst as [-> _]. now rewrite String.eqb_refl.
    + destruct (IH Hnd r Hr) as (u & Hu & Hsu & Hfind).
      exists u. split; [now right|]. split; [exact Hsu|]. cbn.
      destruct (String.eqb_spec (User.email u0) (RegisterNewUser.email r.1))
        as [Heq|_]; [|exact Hfind].
      exfalso. apply Hhd. apply list_elem_of_fmap. exists r. split; [|exact Hr].
      cbn. destruct Hst as [He _]. congruence.
Qed.

(** C9.  Let the password hash verify every password against its own hash.
    A sequence of valid registrations whose emails are pairwise distinct
    and not yet stored is served request by request: every request succeeds
    (redirect to the index), and afterwards a login with the email and the
    password of any of them, in any context over the resulting store,
    succeeds and sets the session to the stored user with that email and
    name. *)
Theorem register_all_then_login :
  forall gen chk (c : Ctx) (rs : list (RegisterNewUser.t * string)),
    (forall salt password, chk (gen salt password) password = true) ->
    NoDup (RegisterNewUser.email ∘ fst <$> rs) ->
    (forall r, r ∈ rs ->
       RegisterNewUser.email r.1 ∉ User.email <$> users (db c)) ->
    let out := register_all gen rs c in
    out.1 = replicate (length rs) (Return (redirect ep_get_all_posts)) /\
    forall form salt c',
      (form, salt) ∈ rs -> db c' = db out.2 ->
      exists u,
        u ∈ users (db out.2) /\
        User.email u = RegisterNewUser.email form /\
        User.name u = RegisterNewUser.name form /\
        login chk
          (Some (Login.mk (RegisterNewUser.email form)
                   (RegisterNewUser.password form))) c'
        = (Return (redirect ep_get_all_posts),
           {| db := db c'; session := Some (User.id u); flashes := flashes c' |}).
Proof.
  intros gen chk c rs Hhash Hnd Hfresh out. subst out.
  destruct (register_all_distinct gen rs c Hnd Hfresh)
    as [Hresp (new & Husers & Hstored)].
  split; [exact Hresp|].
  intros form salt c' Hin Hdb.
  destruct (find_stored_for gen rs new Hstored Hnd (form, salt) Hin)
    as (u & Hu & (He & Hp & Hn) & Hfind).
  cbn in He, Hp, Hn, Hfind.
  exists u. rewrite Husers.
  split; [apply elem_of_app; now right|]. split; [exact He|]. split; [exact Hn|].
  rewrite (login_found chk _ _ c' u).
  - now rewrite Hp, Hhash.
  - rewrite Hdb, Husers, find_email_app; [exact Hfind|].
    intros v Hv Hve. apply (Hfresh (form, salt) Hin). cbn.
    apply list_elem_of_fmap. now exists v.
Qed.

Lemma register_all_then_login_witness :
  let out := register_all example_generate
               [(alice_form, "s1"); (bob_form, "s2")] (as_user create_all None) in
  out.1 = [Return (redirect ep_get_all_posts); Return (redirect ep_get_all_posts)] /\
  exists u,
    login example_check (Some (Login.mk "bob@example.com" "hunter2"))
      (as_user (db out.2) None)
    = (Return (redirect ep_get_all_posts), as_user (db out.2) (Some (User.id u))).
Proof.
  destruct (register_all_then_login example_generate example_check
              (as_user create_all None) [(alice_form, "s1"); (bob_form, "s2")])
    as [Hresp Hlogin].
  - apply example_hash_verifies.
  - cbn. repeat constructor; rewrite ?not_elem_of_cons;
      repeat split; try discriminate; apply not_elem_of_nil.
  - intros r _. cbn. apply not_elem_of_nil.
  - split; [exact Hresp|].
    destruct (Hlogin bob_form "s2"
                (as_user (db (register_all example_generate
                                [(alice_form, "s1"); (bob_form, "s2")]
                                (as_user create_all None)).2) None))
      as (u & _ & _ & _ & Hu).
    + right. left.
    + reflexivity.
    + exists u. exact Hu.
Defined.

(** ** Editing a post *)

Lemma primary_key_determines_post (posts : list BlogPost.t) p q :
  NoDup (BlogPost.id <$> posts) ->
  p ∈ posts -> q ∈ posts -> BlogPost.id p = BlogPost.id q -> p = q.
Proof.
  induction posts as [|x posts IH]; intros Hnd Hp Hq Hid.
  - now apply elem_of_nil in Hp.
  - rewrite fmap_cons in Hnd. apply NoDup_cons in Hnd as [Hx Hnd].
    apply elem_of_cons in Hp as [->|Hp]; apply elem_of_cons in Hq as [->|Hq];
      try reflexivity; try (now apply IH).
    + exfalso. apply Hx. rewrite Hid. apply list_elem_of_fmap. now exists q.
    + exfalso. apply Hx. rewrite <- Hid. apply list_elem_of_fmap. now exists p.
Qed.

Lemma edit_post_view_found post_id form c p :
  List.find (fun q => BlogPost.id q =? post_id) (blog_posts (db c)) = Some p ->
  let p' := BlogPost.mk (BlogPost.id p) (BlogPost.author_id p)
              (CreatePostForm.title form) (CreatePostForm.subtitle form)
              (BlogPost.date p) (CreatePostForm.body form)
              (CreatePostForm.img_url form) in
  edit_post_view (post_id, Some form) c =
    if existsb (fun q => (BlogPost.title q =? CreatePostForm.title form)%string
                         && negb (BlogPost.id q =? post_id))
               (blog_posts (db c))
    then (Raise IntegrityError, c)
    else (Return (redirect (ep_show_post post_id)),
          {| db := {| users := users (db c);
                      blog_posts :=
                        (fun q => if BlogPost.id q =? post_id then p' else q)
                          <$> blog_posts (db c);
                      comments := comments (db c) |};
             session := session c; flashes := flashes c |}).
Proof.
  intros Hfind p'. subst p'. pose proof (find_some_id _ _ _ Hfind) as [_ Hid].
  run_flask. rewrite Hfind. cbn. unfold commit_dirty_post, url_for. cbn.
  rewrite Hid. now destruct (existsb _ _).
Qed.

(** C10.  Let the primary keys of the stored posts be distinct.  When the
    administrator's edit request with a valid form succeeds, it answers
    with the redirect to the page of that post, a post with that
    identifier is stored, and the store differs from the one before only in
    that post: in its row the title, subtitle, body and image URL are the
    submitted values while identifier, author and date are as before; every
    other post row, every user and every comment is unchanged, as are the
    session and the flashed messages. *)
Theorem edit_post_overwrites_four_fields :
  forall (c : Ctx) (post_id : Z) (form : CreatePostForm.t) (resp : Response),
    admin_logged_in c ->
    NoDup (BlogPost.id <$> blog_posts (db c)) ->
    let r := edit_post (post_id, Some form) c in
    r.1 = Return resp ->
    resp = redirect (ep_show_post post_id) /\
    (exists p, p ∈ blog_posts (db c) /\ BlogPost.id p = post_id) /\
    users (db r.2) = users (db c) /\
    comments (db r.2) = comments (db c) /\
    session r.2 = session c /\
    flashes r.2 = flashes c /\
    length (blog_posts (db r.2)) = length (blog_posts (db c)) /\
    forall i q, blog_posts (db c) !! i = Some q ->
      blog_posts (db r.2) !! i =
        Some (if decide (BlogPost.id q = post_id)
              then BlogPost.mk (BlogPost.id q) (BlogPost.author_id q)
                     (CreatePostForm.title form) (CreatePostForm.subtitle form)
                     (BlogPost.date q) (CreatePostForm.body form)
                     (CreatePostForm.img_url form)
              else q).
Proof.
  intros c post_id form resp Hadmin Hnd r. subst r.
  unfold edit_post. rewrite admin_only_admin by assumption.
  destruct (List.find (fun q => BlogPost.id q =? post_id) (blog_posts (db c)))
    as [p|] eqn:Hfind.
  2:{ run_flask. rewrite Hfind.
      destruct (sqlite_integer post_id); cbn; discriminate. }
  rewrite (edit_post_view_found _ _ _ _ Hfind). cbn zeta.
  destruct (existsb _ _); cbn; [discriminate|].
  intros [= <-]. pose proof (find_some_id _ _ _ Hfind) as [Hp Hid].
  split; [reflexivity|]. split; [now exists p|].
  do 4 (split; [reflexivity|]). split; [now rewrite length_fmap|].
  intros i q Hq. rewrite list_lookup_fmap, Hq. cbn.
  destruct (Z.eqb_spec (BlogPost.id q) post_id) as [Heq|Hne].
  - rewrite decide_True by assumption.
    assert (p = q) as ->; [|reflexivity].
    apply (primary_key_determines_post (blog_posts (db c))); auto.
    + apply list_elem_of_lookup. now exists i.
    + congruence.
  - now rewrite decide_False by assumption.
Qed.

Lemma edit_post_overwrites_four_fields_witness :
  let r := edit_post (2, Some hello_form) (as_user example_store (Some 1)) in
  r.1 = Return (redirect (ep_show_post 2)) /\
  blog_posts (db r.2) !! 0%nat = Some first_post /\
  blog_posts (db r.2) !! 1%nat =
    Some (BlogPost.mk 2 (Some 1) "Third" "More" "March 06,2024" "<p>Text</p>"
            "http://img/3.png").
Proof.
  destruct (edit_post_overwrites_four_fields (as_user example_store (Some 1)) 2
              hello_form (redirect (ep_show_post 2)))
    as (_ & _ & _ & _ & _ & _ & _ & Hrows).
  - exists alice. split; reflexivity.
  - cbn. repeat constructor; rewrite ?not_elem_of_cons;
      repeat split; try discriminate; apply not_elem_of_nil.
  - reflexivity.
  - split; [reflexivity|]. split.
    + apply (Hrows 0%nat first_post). reflexivity.
    + apply (Hrows 1%nat second_post). reflexivity.
Defined.

(** * Further properties of the views *)

(** ** What each view can do to the request context *)

Lemma show_post_cases index form c :
  let found :=
    List.find (fun p => BlogPost.id p =? index) (blog_posts (db c)) in
  (show_post index form c = (Raise OverflowError, c) /\
   BlogPost_query_get index c = (Raise OverflowError, c)) \/
  (BlogPost_query_get index c = (Return found, c) /\
   ((show_post index form c
     = (Return (render_template "post.html" (post_page found)), c) /\
     form = None) \/
    (exists f u cm,
        form = Some f /\ current_user_of c = LoggedIn u /\
        cm = Comment.mk (next_id (Comment.id <$> comments (db c)))
               (Some (User.id u)) (BlogPost.id <$> found) (UserComment.comment f) /\
        show_post index form c
        = (Return (render_template "post.html" (post_page found)),
           {| db := {| users := users (db c); blog_posts := blog_posts (db c);
                       comments := comments (db c) ++ [cm] |};
              session := session c; flashes := flashes c |})) \/
    (exists f,
        form = Some f /\ current_user_of c = AnonymousUserMixin /\
        show_post index form c
        = (Return (redirect ep_login),
           {| db := db c; session := session c;
              flashes := flashes c ++ ["You need to login to comment!!!"] |})))).
Proof.
  intros found. subst found. unfold show_post, bind.
  destruct (query_get_cases index c) as [Hget | Hget]; rewrite Hget;
    [right; split; [reflexivity|] | left; split; reflexivity].
  run_flask.
  destruct form as [f|]; [|left; split; reflexivity].
  destruct (current_user_of c) as [|u] eqn:Hu; cbn.
  - right. right. exists f. repeat split.
  - right. left. exists f, u. eexists.
    split; [reflexivity|]. split; [reflexivity|]. split; reflexivity.
Qed.

Lemma login_cases chk form c :
  db (login chk form c).2 = db c /\
  exists resp, (login chk form c).1 = Return resp.
Proof.
  destruct form as [[email password]|]; [|split; [reflexivity | eexists; reflexivity]].
  destruct (List.find (fun v => (User.email v =? email)%string) (users (db c)))
    as [u|] eqn:Hfind.
  - rewrite (login_found _ _ _ _ _ Hfind).
    destruct (chk _ _); cbn; split; try reflexivity; eexists; reflexivity.
  - rewrite (login_no_such_email _ _ _ _ Hfind). cbn.
    split; [reflexivity | eexists; reflexivity].
Qed.

Lemma register_keeps_posts gen form salt c :
  blog_posts (db (register gen form salt c).2) = blog_posts (db c) /\
  comments (db (register gen form salt c).2) = comments (db c).
Proof.
  destruct form as [form|]; [|split; reflexivity].
  destruct (decide (RegisterNewUser.email form ∈ User.email <$> users (db c))).
  - rewrite register_taken_email by assumption. split; reflexivity.
  - rewrite register_fresh_email by assumption. split; reflexivity.
Qed.

Lemma register_keeps_users gen form salt c u :
  u ∈ users (db c) -> u ∈ users (db (register gen form salt c).2).
Proof.
  intros Hu. destruct form as [form|]; [|exact Hu].
  destruct (decide (RegisterNewUser.email form ∈ User.email <$> users (db c))).
  - now rewrite register_taken_email by assumption.
  - rewrite register_fresh_email by assumption. cbn. apply elem_of_app. now left.
Qed.

Lemma show_post_keeps_posts index form c :
  blog_posts (db (show_post index form c).2) = blog_posts (db c) /\
  users (db (show_post index form c).2) = users (db c) /\
  session (show_post index form c).2 = session c.
Proof.
  destruct (show_post_cases index form c)
    as [[-> _]|[_ [[-> _]|[(f & u & cm & _ & _ & _ & ->)|(f & _ & _ & ->)]]]];
    repeat split.
Qed.

(** ** Who can change what *)

Lemma admin_routes_forbidden_for_other_users_witness :
  delete_post 1 (as_user example_store (Some 2))
  = (Raise (HTTPException 403), as_user example_store (Some 2)).
Proof.
  destruct (admin_routes_forbidden_for_other_users
              (as_user example_store (Some 2)) bob None a_day 1)
    as (_ & _ & H).
  - reflexivity.
  - cbn. lia.
  - exact H.
Defined.

(** X2.  Whatever the request, the table of posts is changed only when the
    administrator is logged in: for any other session (none, a stale one,
    another user) every view leaves [blog_posts] as it was. *)
Theorem only_admin_changes_posts :
  forall gen chk (r : Request) (c : Ctx),
    ~ admin_logged_in c ->
    blog_posts (db (dispatch gen chk r c).2) = blog_posts (db c).
Proof.
  intros gen chk r c Hnot.
  assert (Hadm : forall A (f : A -> Flask Response) args,
             blog_posts (db (admin_only f args c).2) = blog_posts (db c)).
  { intros A f args.
    destruct (admin_only_runs_only_for_admin f args c) as [Ha|[e He]];
      [contradiction | now rewrite He]. }
  destruct r; cbn [dispatch]; try reflexivity; try apply Hadm.
  - apply show_post_keeps_posts.
  - apply register_keeps_posts.
  - now rewrite (proj1 (login_cases chk form c)).
Qed.

Lemma only_admin_changes_posts_witness :
  blog_posts
    (db (dispatch example_generate example_check (GET_delete_post 1)
           (as_user example_store (Some 2))).2)
  = [first_post; second_post].
Proof.
  apply (only_admin_changes_posts example_generate example_check
           (GET_delete_post 1) (as_user example_store (Some 2))).
  intros (u & Hu & Hid). cbn in Hu. injection Hu as <-. discriminate Hid.
Defined.

Lemma reachable_keys_unique_witness :
  keys_unique
    {| users := [alice]; blog_posts := [];
       comments := [Comment.mk 1 (Some 1) None "nice post"] |}.
Proof.
  apply (reachable_keys_unique example_generate example_check).
  exact (reachable_request example_generate example_check _ (Some 1) []
           (ANY_post 7 (Some (UserComment.mk "nice post")))
           (reachable_request example_generate example_check _ None []
              (ANY_register (Some alice_form) "s1")
              (reachable_create_all _ _))).
Defined.

(** X7.  No request removes or rewrites a stored user: after any request the
    table of users is the one before, with at most one row appended. *)
Theorem users_only_grow :
  forall gen chk (r : Request) (c : Ctx),
    users (db (dispatch gen chk r c).2) = users (db c) \/
    exists u, users (db (dispatch gen chk r c).2) = (users (db c) ++ [u])%list.
Proof.
  intros gen chk r c.
  destruct (dispatch_store_step gen chk r c); cbn; eauto.
Qed.

(** X8.  No request removes a comment or changes its identifier, author or text:
    after any request every comment row is still at its place, and differs
    from the row before at most in a parent reference set to NULL. *)
Theorem comments_never_removed_or_edited :
  forall gen chk (r : Request) (c : Ctx) (i : nat) (cm : Comment.t),
    comments (db c) !! i = Some cm ->
    exists cm',
      comments (db (dispatch gen chk r c).2) !! i = Some cm' /\
      Comment.id cm' = Comment.id cm /\
      Comment.author_id cm' = Comment.author_id cm /\
      Comment.text cm' = Comment.text cm /\
      (Comment.post_id cm' = Comment.post_id cm \/ Comment.post_id cm' = None).
Proof.
  intros gen chk r c i cm Hi.
  destruct (dispatch_store_step gen chk r c); cbn;
    try (exists cm; repeat split; auto; fail).
  - exists cm. split; [|repeat split; auto].
    apply lookup_app_l_Some. exact Hi.
  - exists (unparent k cm). split; [now rewrite list_lookup_fmap, Hi|].
    unfold unparent. case_decide; cbn; repeat split; auto.
Qed.

Lemma comments_never_removed_or_edited_witness :
  exists cm',
    comments
      (db (dispatch example_generate example_check (GET_delete_post 1)
             (as_user example_store (Some 1))).2) !! 0%nat = Some cm' /\
    Comment.id cm' = 1 /\ Comment.text cm' = "nice post".
Proof.
  destruct (comments_never_removed_or_edited example_generate example_check
              (GET_delete_post 1) (as_user example_store (Some 1)) 0%nat
              nice_comment)
    as (cm' & H & Hid & _ & Htext & _).
  - reflexivity.
  - exists cm'. repeat split; assumption.
Defined.

(** ** The administrator's views, case by case *)

Lemma admin_only_cases {A} (f : A -> Flask Response) args c :
  (admin_only f args c).2 = c \/
  (admin_logged_in c /\ admin_only f args c = f args c).
Proof.
  destruct (admin_only_runs_only_for_admin f args c) as [Ha|[e He]].
  - right. split; [exact Ha | now apply admin_only_admin].
  - left. now rewrite He.
Qed.

Lemma new_post_view_cases args c :
  (new_post_view args c).2 = c \/
  exists form x u,
    args = (Some form, x) /\ current_user_of c = LoggedIn u /\
    new_post_view args c =
      (Return (redirect ep_get_all_posts),
       {| db := {| users := users (db c);
                   blog_posts := blog_posts (db c) ++ [created_post c u form x];
                   comments := comments (db c) |};
          session := session c; flashes := flashes c |}).
Proof.
  destruct args as [[form|] x]; [|left; reflexivity].
  run_flask. destruct (current_user_of c) as [|u] eqn:Hu; cbn; [now left|].
  unfold add_commit_post. run_flask. case_decide; cbn; [now left|].
  right. exists form, x, u. repeat split.
Qed.

Lemma edit_post_view_cases args c :
  (edit_post_view args c).2 = c \/
  exists post_id form p,
    args = (post_id, Some form) /\ p ∈ blog_posts (db c) /\
    BlogPost.id p = post_id /\
    (forall q, q ∈ blog_posts (db c) ->
       BlogPost.title q = CreatePostForm.title form -> BlogPost.id q = post_id) /\
    edit_post_view args c =
      (Return (redirect (ep_show_post post_id)),
       {| db := {| users := users (db c);
                   blog_posts :=
                     (fun q => if BlogPost.id q =? post_id
                               then BlogPost.mk (BlogPost.id p) (BlogPost.author_id p)
                                      (CreatePostForm.title form)
                                      (CreatePostForm.subtitle form)
                                      (BlogPost.date p)
                                      (CreatePostForm.body form)
                                      (CreatePostForm.img_url form)
                               else q) <$> blog_posts (db c);
                   comments := comments (db c) |};
          session := session c; flashes := flashes c |}).
Proof.
  destruct args as [post_id form].
  destruct (List.find (fun q => BlogPost.id q =? post_id) (blog_posts (db c)))
    as [p|] eqn:Hfind.
  2:{ left. run_flask. rewrite Hfind. now destruct (sqlite_integer post_id). }
  destruct form as [form|].
  { rewrite (edit_post_view_found _ _ _ _ Hfind). cbn zeta.
    destruct (existsb _ _) eqn:Hother; [now left|].
    right. exists post_id, form, p.
    pose proof (find_some_id _ _ _ Hfind) as [Hp Hid].
    repeat split; try assumption.
    intros q Hq Htitle.
    destruct (Z.eq_dec (BlogPost.id q) post_id) as [Heq|Hne]; [exact Heq|].
    exfalso. apply not_true_iff_false in Hother. apply Hother.
    apply existsb_exists. exists q. split; [now apply list_elem_of_In|].
    apply andb_true_iff. split; [now apply String.eqb_eq|].
    apply negb_true_iff. now apply Z.eqb_neq. }
  left. run_flask. now rewrite Hfind.
Qed.

Lemma delete_post_view_cases post_id c :
  (delete_post_view post_id c).2 = c \/
  delete_post_view post_id c =
    (Return (redirect ep_get_all_posts),
     {| db := {| users := users (db c);
                 blog_posts :=
                   filter (fun q => BlogPost.id q ≠ post_id) (blog_posts (db c));
                 comments := unparent post_id <$> comments (db c) |};
        session := session c; flashes := flashes c |}).
Proof.
  destruct (List.find (fun q => BlogPost.id q =? post_id) (blog_posts (db c)))
    as [p|] eqn:Hfind.
  - right. now apply (delete_post_view_found _ p).
  - left. run_flask. rewrite Hfind. now destruct (sqlite_integer post_id).
Qed.

(** ** Posts belong to the administrator *)

Lemma dispatch_keeps_post_authors gen chk r c :
  (forall p, p ∈ blog_posts (db c) ->
     BlogPost.author_id p = Some 1 /\ exists u, u ∈ users (db c) /\ User.id u = 1) ->
  forall p, p ∈ blog_posts (db (dispatch gen chk r c).2) ->
    BlogPost.author_id p = Some 1 /\
    exists u, u ∈ users (db (dispatch gen chk r c).2) /\ User.id u = 1.
Proof.
  intros Hinv.
  destruct r; cbn [dispatch]; try exact Hinv.
  - destruct (show_post_keeps_posts index form c) as (-> & -> & _). exact Hinv.
  - unfold new_post.
    destruct (admin_only_cases new_post_view (form, now) c)
      as [->|[(a & Ha & Hid) ->]]; [exact Hinv|].
    destruct (new_post_view_cases (form, now) c)
      as [->|(f & x & u & _ & Hu & ->)]; [exact Hinv|].
    assert (u = a) as -> by congruence.
    cbn. intros p Hp.
    apply elem_of_app in Hp as [Hp|Hp]; [now apply Hinv|].
    apply list_elem_of_singleton in Hp as ->. cbn. split; [now rewrite Hid|].
    exists a. split; [now apply current_user_stored | exact Hid].
  - unfold edit_post.
    destruct (admin_only_cases edit_post_view (post_id, form) c)
      as [->|[_ ->]]; [exact Hinv|].
    destruct (edit_post_view_cases (post_id, form) c)
      as [->|(k & f & p0 & _ & Hp0 & _ & _ & ->)]; [exact Hinv|].
    cbn. intros p Hp. apply list_elem_of_fmap in Hp as (q & -> & Hq).
    destruct (BlogPost.id q =? k); [|now apply Hinv].
    cbn. exact (Hinv p0 Hp0).
  - unfold delete_post.
    destruct (admin_only_cases delete_post_view post_id c)
      as [->|[_ ->]]; [exact Hinv|].
    destruct (delete_post_view_cases post_id c) as [->| ->]; [exact Hinv|].
    cbn. intros p Hp. apply list_elem_of_filter in Hp as [_ Hp]. now apply Hinv.
  - destruct (register_keeps_posts gen form salt c) as [-> _].
    intros p Hp. destruct (Hinv p Hp) as [Ha (u & Hu & Hid)].
    split; [exact Ha|]. exists u. split; [|exact Hid].
    now apply register_keeps_users.
  - rewrite (proj1 (login_cases chk form c)). exact Hinv.
Qed.

(** X6.  In every store reachable from the empty database every post has the
    author identifier 1, and a user with that identifier is stored: posts
    are written by the administrator only, and editing keeps the author. *)
Theorem reachable_posts_written_by_admin :
  forall gen chk (s : Store),
    reachable gen chk s ->
    forall p, p ∈ blog_posts s ->
      BlogPost.author_id p = Some 1 /\
      exists u, u ∈ users s /\ User.id u = 1.
Proof.
  intros gen chk s Hs. induction Hs as [|s cookie fl r Hs IH].
  - intros p Hp. now apply elem_of_nil in Hp.
  - apply (dispatch_keeps_post_authors gen chk r
             {| db := s; session := cookie; flashes := fl |}). exact IH.
Qed.

Lemma reachable_posts_written_by_admin_witness :
  let p := BlogPost.mk 1 (Some 1) "Third" "More" "March 05,2024" "<p>Text</p>"
             "http://img/3.png" in
  BlogPost.author_id p = Some 1 /\ exists u, u ∈ [alice] /\ User.id u = 1.
Proof.
  cbn zeta.
  apply (reachable_posts_written_by_admin example_generate example_check
           {| users := [alice];
              blog_posts := [BlogPost.mk 1 (Some 1) "Third" "More" "March 05,2024"
                               "<p>Text</p>" "http://img/3.png"];
              comments := [] |}).
  - exact (reachable_request example_generate example_check _ (Some 1) []
             (ANY_new_post (Some hello_form) a_day)
             (reachable_request example_generate example_check _ None []
                (ANY_register (Some alice_form) "s1")
                (reachable_create_all _ _))).
  - left.
Defined.

(** ** Sessions *)

Lemma find_user_some (l : list User.t) k u :
  List.find (fun v => User.id v =? k) l = Some u -> u ∈ l /\ User.id u = k.
Proof.
  intros H. apply find_some in H as [Hin Hk].
  split; [now apply list_elem_of_In | lia].
Qed.

Lemma find_user_unique (l : list User.t) u :
  NoDup (User.id <$> l) -> u ∈ l ->
  List.find (fun v => User.id v =? User.id u) l = Some u.
Proof.
  induction l as [|v l IH]; intros Hnd Hu.
  - now apply elem_of_nil in Hu.
  - rewrite fmap_cons in Hnd. apply NoDup_cons in Hnd as [Hv Hnd]. cbn.
    destruct (Z.eqb_spec (User.id v) (User.id u)) as [Heq|Hne].
    + apply elem_of_cons in Hu as [->|Hu]; [reflexivity|].
      exfalso. apply Hv. rewrite Heq. apply list_elem_of_fmap. now exists u.
    + apply elem_of_cons in Hu as [->|Hu]; [congruence|]. now apply IH.
Qed.

Lemma find_user_appended (l : list User.t) u k :
  k = User.id u -> k ∉ User.id <$> l ->
  List.find (fun v => User.id v =? k) (l ++ [u]) = Some u.
Proof.
  intros ->. induction l as [|v l IH]; intros Hfresh; cbn.
  - now rewrite Z.eqb_refl.
  - rewrite fmap_cons, not_elem_of_cons in Hfresh. destruct Hfresh as [Hv Hl].
    destruct (Z.eqb_spec (User.id v) (User.id u)); [congruence | now apply IH].
Qed.

(** X10.  With distinct primary keys, [load_user] returns exactly the stored row
    with the requested identifier: a stored user is found again under its
    own identifier, and nothing is returned that is not stored under the
    requested one. *)
Theorem load_user_finds_the_stored_row :
  forall (s : Store) (user_id : Z) (u : User.t),
    NoDup (User.id <$> users s) ->
    (load_user s user_id = Some u <-> u ∈ users s /\ User.id u = user_id).
Proof.
  intros s user_id u Hnd. unfold load_user, User_query_get. split.
  - apply find_user_some.
  - intros [Hu <-]. now apply find_user_unique.
Qed.

Lemma load_user_finds_the_stored_row_witness :
  load_user example_store 2 = Some bob.
Proof.
  apply (load_user_finds_the_stored_row example_store 2 bob).
  - cbn. repeat constructor; rewrite ?not_elem_of_cons;
      repeat split; try discriminate; apply not_elem_of_nil.
  - split; [right; left | reflexivity].
Defined.

(** X11.  A registration with a new email logs the new user in: the request
    redirects to the index, the new row is the last of the users table, and
    in the context it leaves [current_user] is that row. *)
Theorem register_logs_the_new_user_in :
  forall gen (c : Ctx) (form : RegisterNewUser.t) (salt : string),
    RegisterNewUser.email form ∉ User.email <$> users (db c) ->
    let r := register gen (Some form) salt c in
    let u := registered_user gen (db c) form salt in
    r.1 = Return (redirect ep_get_all_posts) /\
    users (db r.2) = (users (db c) ++ [u])%list /\
    (User.id u ∉ User.id <$> users (db c)) /\
    current_user_of r.2 = LoggedIn u.
Proof.
  intros gen c form salt Hfresh r u. subst r u.
  rewrite register_fresh_email by assumption. cbn [fst snd db users].
  split; [reflexivity|]. split; [reflexivity|].
  split; [apply next_id_fresh|].
  unfold current_user_of, load_user, User_query_get. cbn [session db users].
  rewrite (find_user_appended (users (db c))
             (registered_user gen (db c) form salt)
             (next_id (User.id <$> users (db c)))).
  - reflexivity.
  - reflexivity.
  - apply next_id_fresh.
Qed.

Lemma register_logs_the_new_user_in_witness :
  current_user_of
    (register example_generate
       (Some (RegisterNewUser.mk "carol@example.com" "pw" "Carol")) "s3"
       (as_user example_store None)).2
  = LoggedIn (User.mk 3 "carol@example.com" "plain$pw" "Carol").
Proof.
  destruct (register_logs_the_new_user_in example_generate
              (as_user example_store None)
              (RegisterNewUser.mk "carol@example.com" "pw" "Carol") "s3")
    as (_ & _ & _ & H).
  - cbn. rewrite !not_elem_of_cons. repeat split; try discriminate.
    apply not_elem_of_nil.
  - exact H.
Defined.

(** X12.  Whoever registers while the users table is empty receives identifier 1
    and is logged in, and so is the administrator from then on. *)
Theorem first_registration_becomes_administrator :
  forall gen (c : Ctx) (form : RegisterNewUser.t) (salt : string),
    users (db c) = [] ->
    let r := register gen (Some form) salt c in
    r.1 = Return (redirect ep_get_all_posts) /\
    session r.2 = Some 1 /\
    admin_logged_in r.2.
Proof.
  intros gen c form salt Hempty r. subst r.
  rewrite register_fresh_email by (rewrite Hempty; apply not_elem_of_nil).
  unfold admin_logged_in, registered_user, current_user_of, load_user,
    User_query_get.
  cbn [fst snd session db users]. rewrite Hempty. cbn.
  split; [reflexivity|]. split; [reflexivity|].
  eexists. split; reflexivity.
Qed.

Lemma first_registration_becomes_administrator_witness :
  admin_logged_in
    (register example_generate (Some bob_form) "s2" (as_user create_all None)).2.
Proof.
  apply (first_registration_becomes_administrator example_generate
           (as_user create_all None) bob_form "s2").
  reflexivity.
Defined.

(** X13.  Whoever registers while a user with a positive identifier is stored
    receives a larger identifier than 1, is logged in, and is refused with
    403 by the administrator's routes. *)
Theorem later_registration_is_not_administrator :
  forall gen (c : Ctx) (form : RegisterNewUser.t) (salt : string) (v : User.t),
    v ∈ users (db c) -> 1 <= User.id v ->
    RegisterNewUser.email form ∉ User.email <$> users (db c) ->
    let r := register gen (Some form) salt c in
    session r.2 = Some (next_id (User.id <$> users (db c))) /\
    1 < next_id (User.id <$> users (db c)) /\
    forall post_form now post_id,
      new_post (post_form, now) r.2 = (Raise (HTTPException 403), r.2) /\
      edit_post (post_id, post_form) r.2 = (Raise (HTTPException 403), r.2) /\
      delete_post post_id r.2 = (Raise (HTTPException 403), r.2).
Proof.
  intros gen c form salt v Hv Hpos Hfresh r. subst r.
  assert (Hlt : 1 < next_id (User.id <$> users (db c))).
  { pose proof (next_id_above (User.id <$> users (db c)) (User.id v)) as H.
    assert (User.id v ∈ User.id <$> users (db c))
      by (apply list_elem_of_fmap; now exists v).
    specialize (H ltac:(assumption)). lia. }
  rewrite register_fresh_email by assumption. cbn [fst snd session].
  split; [reflexivity|]. split; [exact Hlt|].
  intros post_form now post_id.
  set (c' := {| db := _; session := _; flashes := _ |}).
  assert (Hcu : current_user_of c' = LoggedIn (registered_user gen (db c) form salt)).
  { subst c'. unfold current_user_of, load_user, User_query_get.
    cbn [session db users].
    rewrite (find_user_appended (users (db c))
               (registered_user gen (db c) form salt)
               (next_id (User.id <$> users (db c))));
      [reflexivity | reflexivity | apply next_id_fresh]. }
  repeat split; eapply admin_only_other_user; eauto; cbn; lia.
Qed.

Lemma later_registration_is_not_administrator_witness :
  let r := register example_generate
             (Some (RegisterNewUser.mk "carol@example.com" "pw" "Carol")) "s3"
             (as_user example_store None) in
  session r.2 = Some 3 /\
  delete_post 1 r.2 = (Raise (HTTPException 403), r.2).
Proof.
  destruct (later_registration_is_not_administrator example_generate
              (as_user example_store None)
              (RegisterNewUser.mk "carol@example.com" "pw" "Carol") "s3" alice)
    as (Hs & _ & H).
  - left.
  - cbn. lia.
  - cbn. rewrite !not_elem_of_cons. repeat split; try discriminate.
    apply not_elem_of_nil.
  - split; [exact Hs|]. exact (proj2 (proj2 (H None a_day 1))).
Defined.

(** X15.  A successful login leaves a context in which [current_user] is a stored
    user with the submitted email whose stored hash verified the submitted
    password (primary keys being distinct). *)
Theorem login_sets_current_user :
  forall chk (c : Ctx) (form : Login.t),
    NoDup (User.id <$> users (db c)) ->
    let r := login chk (Some form) c in
    r.1 = Return (redirect ep_get_all_posts) ->
    exists u,
      u ∈ users (db c) /\
      User.email u = Login.email form /\
      chk (User.password u) (Login.password form) = true /\
      current_user_of r.2 = LoggedIn u.
Proof.
  intros chk c [email password] Hnd r. subst r. cbn [Login.email Login.password].
  destruct (List.find (fun v => (User.email v =? email)%string) (users (db c)))
    as [u|] eqn:Hfind.
  - rewrite (login_found _ _ _ _ _ Hfind).
    apply find_some in Hfind as [Hin He].
    apply list_elem_of_In in Hin. apply String.eqb_eq in He.
    destruct (chk (User.password u) password) eqn:Hchk; cbn; [|discriminate].
    intros _. exists u. repeat split; try assumption.
    unfold current_user_of, load_user, User_query_get. cbn.
    now rewrite find_user_unique.
  - rewrite (login_no_such_email _ _ _ _ Hfind). cbn. discriminate.
Qed.

Lemma login_sets_current_user_witness :
  exists u,
    User.email u = "bob@example.com" /\
    current_user_of
      (login example_check (Some (Login.mk "bob@example.com" "hunter2"))
         (as_user example_store None)).2 = LoggedIn u.
Proof.
  destruct (login_sets_current_user example_check (as_user example_store None)
              (Login.mk "bob@example.com" "hunter2"))
    as (u & _ & He & _ & Hu).
  - cbn. repeat constructor; rewrite ?not_elem_of_cons;
      repeat split; try discriminate; apply not_elem_of_nil.
  - reflexivity.
  - exists u. split; assumption.
Defined.

(** X16.  Whatever the form, [login] does not raise and does not write to the
    database, and it changes the session only to the identifier of a stored
    user with the submitted email whose stored hash verified the submitted
    password. *)
Theorem login_starts_sessions_for_verified_users_only :
  forall chk (c : Ctx) (form : option Login.t),
    let r := login chk form c in
    (exists resp, r.1 = Return resp) /\
    db r.2 = db c /\
    (session r.2 = session c \/
     exists f u,
       form = Some f /\ u ∈ users (db c) /\
       User.email u = Login.email f /\
       chk (User.password u) (Login.password f) = true /\
       session r.2 = Some (User.id u)).
Proof.
  intros chk c form r. subst r.
  destruct (login_cases chk form c) as [Hdb Hresp].
  split; [exact Hresp|]. split; [exact Hdb|].
  destruct form as [[email password]|]; [|now left].
  destruct (List.find (fun v => (User.email v =? email)%string) (users (db c)))
    as [u|] eqn:Hfind.
  - rewrite (login_found _ _ _ _ _ Hfind).
    apply find_some in Hfind as [Hin He].
    apply list_elem_of_In in Hin. apply String.eqb_eq in He.
    destruct (chk (User.password u) password) eqn:Hchk; cbn; [|now left].
    right. exists (Login.mk email password), u. repeat split; assumption.
  - rewrite (login_no_such_email _ _ _ _ Hfind). now left.
Qed.

(** X17.  After [logout] nobody is logged in, whoever was: the store is as
    before, a comment submitted to the page of an identifier in the range
    of the database's integers (from 0, below 2^63) is answered with the
    redirect to the login page and not stored, and the administrator's
    routes fail as they do for every anonymous request. *)
Theorem logout_ends_the_session :
  forall (c : Ctx),
    let r := logout c in
    r.1 = Return (redirect ep_get_all_posts) /\
    db r.2 = db c /\
    current_user_of r.2 = AnonymousUserMixin /\
    (forall index form,
        0 <= index < 2 ^ 63 ->
        (show_post index (Some form) r.2).1 = Return (redirect ep_login) /\
        db (show_post index (Some form) r.2).2 = db c) /\
    (forall form now post_id,
        new_post (form, now) r.2 = (Raise AttributeError, r.2) /\
        edit_post (post_id, form) r.2 = (Raise AttributeError, r.2) /\
        delete_post post_id r.2 = (Raise AttributeError, r.2)).
Proof.
  intros c r. subst r. cbn.
  split; [reflexivity|]. split; [reflexivity|]. split; [reflexivity|]. split.
  - intros index form Hrange. unfold show_post, bind.
    rewrite (query_get_in_range _ _ Hrange). split; reflexivity.
  - intros form now post_id. repeat split; now apply admin_only_anonymous.
Qed.

Lemma logout_ends_the_session_witness :
  (show_post 1 (Some (UserComment.mk "bye"))
     (logout (as_user example_store (Some 2))).2).1
  = Return (redirect ep_login).
Proof.
  destruct (logout_ends_the_session (as_user example_store (Some 2)))
    as (_ & _ & _ & H & _).
  apply (H 1 (UserComment.mk "bye")). lia.
Defined.

(** ** Editing and deleting, further *)

Lemma admin_after_post_change c c' :
  admin_logged_in c -> users (db c') = users (db c) -> session c' = session c ->
  admin_logged_in c'.
Proof.
  intros (u & Hu & Hid) Husers Hsess. exists u. split; [|exact Hid].
  unfold current_user_of, load_user, User_query_get in *.
  now rewrite Hsess, Husers.
Qed.

(** X23.  Deleting the same post twice: the administrator's first request removes
    the stored post and redirects to the index; the second finds nothing
    under that identifier and ends in an unhandled exception, leaving the
    context as the first request left it.  The identifier of a stored post
    being an integer of the database, the exception is
    [UnmappedInstanceError]. *)
Theorem delete_post_twice :
  forall (c : Ctx) (p : BlogPost.t),
    admin_logged_in c -> p ∈ blog_posts (db c) ->
    let r1 := delete_post (BlogPost.id p) c in
    let r2 := delete_post (BlogPost.id p) r1.2 in
    r1.1 = Return (redirect ep_get_all_posts) /\
    r2.2 = r1.2 /\
    unhandled r2.1 = true /\
    (sqlite_integer (BlogPost.id p) = true ->
     r2 = (Raise UnmappedInstanceError, r1.2)).
Proof.
  intros c p Hadmin Hp r1 r2. subst r1 r2. unfold delete_post.
  rewrite admin_only_admin by assumption.
  destruct (find_post_of_member _ _ Hp) as [q Hq].
  rewrite (delete_post_view_found _ _ _ Hq). cbn [fst snd].
  split; [reflexivity|].
  rewrite admin_only_admin
    by (eapply admin_after_post_change; [exact Hadmin | reflexivity | reflexivity]).
  set (c1 := {| db := _; session := _; flashes := _ |}).
  assert (Hnone : List.find (fun q0 => BlogPost.id q0 =? BlogPost.id p)
                    (blog_posts (db c1)) = None).
  { subst c1. cbn. apply find_none_id. intros x Hx.
    now apply list_elem_of_filter in Hx as [Hx _]. }
  unfold delete_post_view, bind.
  destruct (sqlite_integer (BlogPost.id p)) eqn:Hk.
  - rewrite (query_get_missing _ _ Hnone Hk). cbn. repeat split.
  - rewrite (query_get_overflow _ _ Hnone Hk). cbn. repeat split. discriminate.
Qed.

Lemma delete_post_twice_witness :
  let r1 := delete_post 1 (as_user example_store (Some 1)) in
  delete_post 1 r1.2 = (Raise UnmappedInstanceError, r1.2).
Proof.
  destruct (delete_post_twice (as_user example_store (Some 1)) first_post)
    as (_ & _ & _ & H).
  - exists alice. split; reflexivity.
  - left.
  - apply H. reflexivity.
Defined.

(** X21.  The administrator edits a stored post with a valid form.  When another
    post already has the submitted title, the commit fails on the unique
    constraint: the request ends in an unhandled [IntegrityError] and
    changes nothing.  When no other post has it, the request succeeds with
    the redirect to the page of the post. *)
Theorem edit_post_title_must_be_free :
  forall (c : Ctx) (p : BlogPost.t) (form : CreatePostForm.t),
    admin_logged_in c -> p ∈ blog_posts (db c) ->
    let r := edit_post (BlogPost.id p, Some form) c in
    ((exists q, q ∈ blog_posts (db c) /\
                BlogPost.title q = CreatePostForm.title form /\
                BlogPost.id q <> BlogPost.id p) ->
       r = (Raise IntegrityError, c)) /\
    ((forall q, q ∈ blog_posts (db c) ->
                BlogPost.title q = CreatePostForm.title form ->
                BlogPost.id q = BlogPost.id p) ->
       r.1 = Return (redirect (ep_show_post (BlogPost.id p)))).
Proof.
  intros c p form Hadmin Hp r. subst r. unfold edit_post.
  rewrite admin_only_admin by assumption.
  destruct (find_post_of_member _ _ Hp) as [p0 Hp0].
  rewrite (edit_post_view_found _ _ _ _ Hp0). cbn zeta.
  destruct (existsb _ _) eqn:Hother.
  - split; [reflexivity|]. intros Hfree. exfalso.
    apply existsb_exists in Hother as (q & Hq & Hcond).
    apply andb_true_iff in Hcond as [Ht Hid].
    apply String.eqb_eq in Ht. apply negb_true_iff, Z.eqb_neq in Hid.
    apply Hid, Hfree; [now apply list_elem_of_In | exact Ht].
  - split; [|reflexivity]. intros (q & Hq & Ht & Hid). exfalso.
    apply not_true_iff_false in Hother. apply Hother.
    apply existsb_exists. exists q. split; [now apply list_elem_of_In|].
    apply andb_true_iff. split; [now apply String.eqb_eq|].
    apply negb_true_iff. now apply Z.eqb_neq.
Qed.

Lemma edit_post_title_must_be_free_witness :
  edit_post (2, Some (CreatePostForm.mk "Hello" "x" "y" "z"))
    (as_user example_store (Some 1))
  = (Raise IntegrityError, as_user example_store (Some 1)) /\
  (edit_post (2, Some (CreatePostForm.mk "Again" "x" "y" "z"))
     (as_user example_store (Some 1))).1
  = Return (redirect (ep_show_post 2)).
Proof.
  assert (Hadmin : admin_logged_in (as_user example_store (Some 1)))
    by (exists alice; split; reflexivity).
  assert (Hp : second_post ∈ blog_posts (db (as_user example_store (Some 1))))
    by (right; left).
  split.
  - apply (edit_post_title_must_be_free _ second_post
             (CreatePostForm.mk "Hello" "x" "y" "z") Hadmin Hp).
    exists first_post. split; [left|]. split; [reflexivity | discriminate].
  - apply (edit_post_title_must_be_free _ second_post
             (CreatePostForm.mk "Again" "x" "y" "z") Hadmin Hp).
    intros q Hq Ht. cbn in Hq. rewrite !elem_of_cons in Hq.
    destruct Hq as [-> | [-> | Hq]]; [discriminate Ht | reflexivity |].
    now apply elem_of_nil in Hq.
Defined.

Lemma fmap_fixed {A} (f : A -> A) (l : list A) :
  (forall x, x ∈ l -> f x = x) -> f <$> l = l.
Proof.
  induction l as [|x l IH]; intros H; [reflexivity|].
  rewrite fmap_cons, H by left. f_equal. apply IH. intros y Hy. apply H. now right.
Qed.

(** X22.  Saving a post unchanged changes nothing: when the administrator submits
    the edit form of a stored post with the values the post already has, the
    request succeeds and the whole context, the store included, is as
    before (primary keys and titles being distinct). *)
Theorem edit_post_with_own_values_is_identity :
  forall (c : Ctx) (p : BlogPost.t),
    admin_logged_in c -> p ∈ blog_posts (db c) ->
    NoDup (BlogPost.id <$> blog_posts (db c)) ->
    NoDup (BlogPost.title <$> blog_posts (db c)) ->
    let form := CreatePostForm.mk (BlogPost.title p) (BlogPost.subtitle p)
                  (BlogPost.img_url p) (BlogPost.body p) in
    edit_post (BlogPost.id p, Some form) c
    = (Return (redirect (ep_show_post (BlogPost.id p))), c).
Proof.
  intros c p Hadmin Hp Hids Htitles form. subst form. unfold edit_post.
  rewrite admin_only_admin by assumption.
  destruct (find_post_of_member _ _ Hp) as [p0 Hp0].
  pose proof (find_some_id _ _ _ Hp0) as [Hp0in Hp0id].
  assert (p0 = p) as ->
    by (apply (primary_key_determines_post (blog_posts (db c))); auto).
  rewrite (edit_post_view_found _ _ _ _ Hp0). cbn zeta.
  cbn [CreatePostForm.title CreatePostForm.subtitle CreatePostForm.img_url
       CreatePostForm.body].
  assert (Hother :
            existsb (fun q => (BlogPost.title q =? BlogPost.title p)%string
                              && negb (BlogPost.id q =? BlogPost.id p))
              (blog_posts (db c)) = false).
  { apply not_true_iff_false. intros Hex.
    apply existsb_exists in Hex as (q & Hq & Hcond).
    apply andb_true_iff in Hcond as [Ht Hid].
    apply String.eqb_eq in Ht. apply negb_true_iff, Z.eqb_neq in Hid.
    apply list_elem_of_In in Hq. apply Hid. f_equal.
    clear Hid Hp0 Hp0in Hp0id Hids Hadmin.
    induction (blog_posts (db c)) as [|x l IH]; [now apply elem_of_nil in Hp|].
    rewrite fmap_cons in Htitles. apply NoDup_cons in Htitles as [Hx Hl].
    apply elem_of_cons in Hp as [->|Hp]; apply elem_of_cons in Hq as [->|Hq];
      try reflexivity; try (now apply IH).
    - exfalso. apply Hx. rewrite <- Ht. apply list_elem_of_fmap. now exists q.
    - exfalso. apply Hx. rewrite Ht. apply list_elem_of_fmap. now exists p. }
  rewrite Hother. f_equal.
  destruct c as [[us ps cs] se fl]. cbn in *. do 2 f_equal.
  apply fmap_fixed. intros q Hq.
  destruct (Z.eqb_spec (BlogPost.id q) (BlogPost.id p)) as [Heq|_]; [|reflexivity].
  assert (q = p) as -> by (apply (primary_key_determines_post ps); auto).
  now destruct p.
Qed.

Lemma edit_post_with_own_values_is_identity_witness :
  edit_post (2, Some (CreatePostForm.mk "Again" "A second post"
                        "http://img/2.png" "<p>Ho</p>"))
    (as_user example_store (Some 1))
  = (Return (redirect (ep_show_post 2)), as_user example_store (Some 1)).
Proof.
  apply (edit_post_with_own_values_is_identity
           (as_user example_store (Some 1)) second_post).
  - exists alice. split; reflexivity.
  - right. left.
  - cbn. repeat constructor; rewrite ?not_elem_of_cons;
      repeat split; try discriminate; apply not_elem_of_nil.
  - cbn. repeat constructor; rewrite ?not_elem_of_cons;
      repeat split; try discriminate; apply not_elem_of_nil.
Defined.

(** ** Reading and commenting, further *)

(** X18.  For an identifier in the range of the database's integers (from 0,
    as the route accepts, below 2^63) [show_post] never raises, whatever
    the form and the session: it answers with the post page or the redirect
    to the login page, leaves users, posts and the session as they were,
    and adds at most one comment row at the end of the comments table. *)
Theorem show_post_never_raises :
  forall (c : Ctx) (index : Z) (form : option UserComment.t),
    0 <= index < 2 ^ 63 ->
    let r := show_post index form c in
    (exists resp, r.1 = Return resp) /\
    users (db r.2) = users (db c) /\
    blog_posts (db r.2) = blog_posts (db c) /\
    session r.2 = session c /\
    (comments (db r.2) = comments (db c) \/
     exists cm, comments (db r.2) = (comments (db c) ++ [cm])%list).
Proof.
  intros c index form Hrange r. subst r.
  pose proof (query_get_in_range index c Hrange) as Hget.
  destruct (show_post_cases index form c)
    as [[_ Hov]|[_ [[-> _]|[(f & u & cm & _ & _ & _ & ->)|(f & _ & _ & ->)]]]];
    [congruence| | |]; cbn; repeat split; eauto.
Qed.

Lemma show_post_never_raises_witness :
  exists resp,
    (show_post 7 (Some (UserComment.mk "hello?"))
       (as_user example_store (Some 2))).1 = Return resp.
Proof.
  destruct (show_post_never_raises (as_user example_store (Some 2)) 7
              (Some (UserComment.mk "hello?"))) as [H _].
  - lia.
  - exact H.
Defined.

(** X19.  A logged-in user submits a comment to the page of an identifier in
    the range of the database's integers (from 0, below 2^63) that no
    stored post has: the comment is stored all the same, as a new last row
    with that user as author and a NULL parent, and the post page is
    rendered without a post. *)
Theorem comment_on_missing_post_is_stored_without_parent :
  forall (c : Ctx) (u : User.t) (index : Z) (form : UserComment.t),
    current_user_of c = LoggedIn u ->
    0 <= index < 2 ^ 63 ->
    (forall p, p ∈ blog_posts (db c) -> BlogPost.id p <> index) ->
    let r := show_post index (Some form) c in
    r.1 = Return (render_template "post.html" (post_page None)) /\
    comments (db r.2) =
      (comments (db c) ++
       [Comment.mk (next_id (Comment.id <$> comments (db c)))
          (Some (User.id u)) None (UserComment.comment form)])%list.
Proof.
  intros c u index form Hu Hrange Hnone r. subst r.
  apply find_none_id in Hnone.
  pose proof (query_get_in_range index c Hrange) as Hget.
  destruct (show_post_cases index (Some form) c)
    as [[_ Hov]|[_ [[_ [=]]|[(f & v & cm & [= <-] & Hv & -> & ->)
                            |(f & _ & Hanon & _)]]]];
    [congruence | | congruence].
  assert (v = u) as -> by congruence.
  rewrite Hnone. cbn. split; reflexivity.
Qed.

Lemma comment_on_missing_post_is_stored_without_parent_witness :
  comments
    (db (show_post 7 (Some (UserComment.mk "hello?"))
           (as_user example_store (Some 2))).2)
  = [nice_comment; Comment.mk 2 (Some 2) None "hello?"].
Proof.
  destruct (comment_on_missing_post_is_stored_without_parent
              (as_user example_store (Some 2)) bob 7 (UserComment.mk "hello?"))
    as [_ H].
  - reflexivity.
  - lia.
  - intros p Hp. cbn in Hp. rewrite !elem_of_cons in Hp.
    destruct Hp as [-> | [-> | Hp]]; cbn; try lia.
    now apply elem_of_nil in Hp.
  - exact H.
Defined.

(** ** Registration and posting, further *)

(** X14.  [register] never raises: the check of the submitted email against the
    stored ones keeps the insert away from the unique constraint of the
    email column.  It answers with the redirect to the index (a user was
    added), the redirect to the login page (the email is taken, nothing was
    written) or the registration page (nothing was submitted). *)
Theorem register_never_raises :
  forall gen (c : Ctx) (form : option RegisterNewUser.t) (salt : string),
    let r := register gen form salt c in
    (r.1 = Return (redirect ep_get_all_posts) /\
     exists u, users (db r.2) = (users (db c) ++ [u])%list) \/
    (r.1 = Return (redirect ep_login) /\ db r.2 = db c) \/
    (r.1 = Return (render_template "register.html" no_args) /\ r.2 = c).
Proof.
  intros gen c form salt r. subst r.
  destruct form as [form|]; [|right; right; split; reflexivity].
  destruct (decide (RegisterNewUser.email form ∈ User.email <$> users (db c))).
  - rewrite register_taken_email by assumption. right. left. split; reflexivity.
  - rewrite register_fresh_email by assumption. left.
    split; [reflexivity|]. eexists. reflexivity.
Qed.

(** X20.  A post the administrator creates under a new title is the last one of
    the index page served next; its identifier is new, its author is the
    administrator, and the posts stored before keep their places. *)
Theorem new_post_is_listed_last :
  forall (c : Ctx) (form : CreatePostForm.t) (x : datetime),
    admin_logged_in c ->
    CreatePostForm.title form ∉ BlogPost.title <$> blog_posts (db c) ->
    let r := new_post (Some form, x) c in
    exists p,
      (get_all_posts r.2).1 =
        Return (render_template "index.html"
                  (all_posts (blog_posts (db c) ++ [p]))) /\
      BlogPost.title p = CreatePostForm.title form /\
      BlogPost.author_id p = Some 1 /\
      (BlogPost.id p ∉ BlogPost.id <$> blog_posts (db c)).
Proof.
  intros c form x (u & Hu & Hid) Hfresh r. subst r.
  rewrite (new_post_fresh_title c u form x) by assumption.
  exists (created_post c u form x). cbn.
  split; [reflexivity|]. split; [reflexivity|]. split; [now rewrite Hid|].
  apply next_id_fresh.
Qed.

Lemma new_post_is_listed_last_witness :
  exists p,
    (get_all_posts
       (new_post (Some hello_form, a_day) (as_user example_store (Some 1))).2).1
    = Return (render_template "index.html"
                (all_posts [first_post; second_post; p])) /\
    BlogPost.title p = "Third".
Proof.
  destruct (new_post_is_listed_last (as_user example_store (Some 1))
              hello_form a_day) as (p & H & Ht & _).
  - exists alice. split; reflexivity.
  - cbn. rewrite !not_elem_of_cons. repeat split; try discriminate.
    apply not_elem_of_nil.
  - exists p. split; assumption.
Defined.

(** X9.  Only [register], [login] and [logout] change the login session: every
    other view leaves it as it was, whatever it does to the store. *)
Theorem other_views_keep_the_session :
  forall gen chk (r : Request) (c : Ctx),
    match r with
    | ANY_register _ _ | ANY_login _ | GET_logout => True
    | _ => session (dispatch gen chk r c).2 = session c
    end.
Proof.
  intros gen chk r c. destruct r; cbn [dispatch]; try exact I; try reflexivity.
  - apply show_post_keeps_posts.
  - unfold new_post.
    destruct (admin_only_cases new_post_view (form, now) c) as [->|[_ ->]];
      [reflexivity|].
    destruct (new_post_view_cases (form, now) c)
      as [->|(f & x & u & _ & _ & ->)]; reflexivity.
  - unfold edit_post.
    destruct (admin_only_cases edit_post_view (post_id, form) c) as [->|[_ ->]];
      [reflexivity|].
    destruct (edit_post_view_cases (post_id, form) c)
      as [->|(k & f & p0 & _ & _ & _ & _ & ->)]; reflexivity.
  - unfold delete_post.
    destruct (admin_only_cases delete_post_view post_id c) as [->|[_ ->]];
      [reflexivity|].
    destruct (delete_post_view_cases post_id c) as [->| ->]; reflexivity.
Qed.

(** ** Requests as a whole *)

(** X4.  A request whose view raises, handled or not, has changed nothing: the
    store, the session and the flashed messages are as before. *)
Theorem raising_request_changes_nothing :
  forall gen chk (r : Request) (c : Ctx) (e : Exn),
    (dispatch gen chk r c).1 = Raise e ->
    (dispatch gen chk r c).2 = c.
Proof.
  intros gen chk r c e. destruct r; cbn [dispatch]; try discriminate.
  - destruct (show_post_cases index form c)
      as [[-> _]|[_ [[-> _]|[(f & u & cm & _ & _ & _ & ->)|(f & _ & _ & ->)]]]];
      try discriminate. reflexivity.
  - unfold new_post.
    destruct (admin_only_cases new_post_view (form, now) c) as [H|[_ ->]];
      [intros _; exact H|].
    destruct (new_post_view_cases (form, now) c)
      as [H|(f & x & u & _ & _ & ->)]; [intros _; exact H | discriminate].
  - unfold edit_post.
    destruct (admin_only_cases edit_post_view (post_id, form) c) as [H|[_ ->]];
      [intros _; exact H|].
    destruct (edit_post_view_cases (post_id, form) c)
      as [H|(k & f & p0 & _ & _ & _ & _ & ->)]; [intros _; exact H | discriminate].
  - unfold delete_post.
    destruct (admin_only_cases delete_post_view post_id c) as [H|[_ ->]];
      [intros _; exact H|].
    destruct (delete_post_view_cases post_id c) as [H| ->];
      [intros _; exact H | discriminate].
  - destruct form as [form|]; [|discriminate].
    destruct (decide (RegisterNewUser.email form ∈ User.email <$> users (db c))).
    + rewrite register_taken_email by assumption. discriminate.
    + rewrite register_fresh_email by assumption. discriminate.
  - destruct (login_cases chk form c) as [_ [resp ->]]. discriminate.
Qed.

Lemma raising_request_changes_nothing_witness :
  (dispatch example_generate example_check
     (ANY_new_post (Some (CreatePostForm.mk "Hello" "x" "y" "z")) a_day)
     (as_user example_store (Some 1))).2
  = as_user example_store (Some 1).
Proof.
  apply (raising_request_changes_nothing example_generate example_check
           (ANY_new_post (Some (CreatePostForm.mk "Hello" "x" "y" "z")) a_day)
           (as_user example_store (Some 1)) IntegrityError).
  reflexivity.
Defined.

(** X3.  A request without a logged-in user writes neither posts nor comments,
    whichever view it reaches: the two tables are as before. *)
Theorem anonymous_request_writes_no_content :
  forall gen chk (r : Request) (c : Ctx),
    current_user_of c = AnonymousUserMixin ->
    blog_posts (db (dispatch gen chk r c).2) = blog_posts (db c) /\
    comments (db (dispatch gen chk r c).2) = comments (db c).
Proof.
  intros gen chk r c Hanon.
  destruct r; cbn [dispatch]; try (split; reflexivity).
  - destruct (show_post_cases index form c)
      as [[-> _]|[_ [[-> _]|[(f & u & cm & _ & Hu & _ & _)|(f & _ & _ & ->)]]]];
      [split; reflexivity | split; reflexivity | congruence | split; reflexivity].
  - unfold new_post. rewrite admin_only_anonymous by assumption. split; reflexivity.
  - unfold edit_post. rewrite admin_only_anonymous by assumption. split; reflexivity.
  - unfold delete_post. rewrite admin_only_anonymous by assumption. split; reflexivity.
  - apply register_keeps_posts.
  - rewrite (proj1 (login_cases chk form c)). split; reflexivity.
Qed.

Lemma anonymous_request_writes_no_content_witness :
  comments
    (db (dispatch example_generate example_check
           (ANY_post 1 (Some (UserComment.mk "spam")))
           (as_user example_store (Some 9))).2)
  = [nice_comment].
Proof.
  apply (anonymous_request_writes_no_content example_generate example_check
           (ANY_post 1 (Some (UserComment.mk "spam")))
           (as_user example_store (Some 9))).
  reflexivity.
Defined.

(** ** Identifiers the database cannot hold *)

(** X24.  An identifier of 2^63 or more, under which no post is stored, cannot
    be sent to the database: [show_post] raises [OverflowError] before it
    looks at the form or the user, and so do [edit_post] and [delete_post]
    for the administrator; the exception is not handled and nothing is
    changed. *)
Theorem identifier_beyond_the_database_overflows :
  forall (c : Ctx) (index : Z),
    2 ^ 63 <= index ->
    (forall p, p ∈ blog_posts (db c) -> BlogPost.id p <> index) ->
    (forall form, show_post index form c = (Raise OverflowError, c)) /\
    (admin_logged_in c ->
     forall form,
       edit_post (index, form) c = (Raise OverflowError, c) /\
       delete_post index c = (Raise OverflowError, c)) /\
    unhandled (Raise (A := Response) OverflowError) = true.
Proof.
  intros c index Hbig Hnone. apply find_none_id in Hnone.
  pose proof (query_get_overflow index c Hnone
                (sqlite_integer_too_large _ Hbig)) as Hget.
  split; [|split; [|reflexivity]].
  - intros form. unfold show_post, bind. now rewrite Hget.
  - intros Hadmin form. unfold edit_post, delete_post.
    rewrite !admin_only_admin by assumption.
    unfold edit_post_view, delete_post_view, bind. now rewrite Hget.
Qed.

Lemma identifier_beyond_the_database_overflows_witness :
  show_post (2 ^ 63) None (as_user example_store None)
  = (Raise OverflowError, as_user example_store None) /\
  delete_post (2 ^ 63) (as_user example_store (Some 1))
  = (Raise OverflowError, as_user example_store (Some 1)).
Proof.
  assert (Hnone : forall p, p ∈ blog_posts example_store -> BlogPost.id p <> 2 ^ 63).
  { intros p Hp. cbn in Hp. rewrite !elem_of_cons in Hp.
    destruct Hp as [-> | [-> | Hp]]; cbn; try lia.
    now apply elem_of_nil in Hp. }
  destruct (identifier_beyond_the_database_overflows
              (as_user example_store None) (2 ^ 63)) as (Hshow & _);
    [lia | exact Hnone |].
  destruct (identifier_beyond_the_database_overflows
              (as_user example_store (Some 1)) (2 ^ 63)) as (_ & Hadmin & _);
    [lia | exact Hnone |].
  split; [apply Hshow|].
  apply (Hadmin ltac:(exists alice; split; reflexivity) None).
Defined.
